(** * MetaXcan, [metax/predixcan/Utilities.py]: phenotype preparation,
      covariate residualisation and context selection.

    The module is Python 2 code ([xrange], implicit relative imports) on top
    of numpy and pandas.  Its values are binary64 numbers, modelled by the
    standard library's [spec_float] at precision 53, so that every concrete
    evaluation below is the IEEE-754 one. *)

From Stdlib Require Import ZArith List String Ascii Bool Lia.
From Stdlib Require Import Floats.SpecFloat Sorting.Sorted.
From stdpp Require Import gmap strings list.

Local Open Scope Z_scope.

(** ** binary64 *)

Module F64.

Definition prec : Z := 53.
Definition emax : Z := 1024.

Abbreviation float := spec_float.

Definition nan : float := S754_nan.
Definition zero : float := S754_zero false.
Definition of_Z (z : Z) : float := binary_normalize prec emax z 0 false.

Definition add : float -> float -> float := SFadd prec emax.
Definition sub : float -> float -> float := SFsub prec emax.
Definition mul : float -> float -> float := SFmul prec emax.
Definition div : float -> float -> float := SFdiv prec emax.
Definition abs : float -> float := SFabs.
Definition opp : float -> float := SFopp.
Definition eqb : float -> float -> bool := SFeqb.
Definition ltb : float -> float -> bool := SFltb.
Definition leb : float -> float -> bool := SFleb.

Definition isnan (x : float) : bool :=
  match x with S754_nan => true | _ => false end.

Definition isfinite (x : float) : bool :=
  match x with S754_nan | S754_infinity _ => false | _ => true end.

(** A decimal literal [m]e[-d], correctly rounded: [dec 1 3] is [1e-3]. *)
Definition dec (m : Z) (d : nat) : float := div (of_Z m) (of_Z (10 ^ Z.of_nat d)).

(** Python truth value of a float: zero of either sign is false, NaN is true. *)
Definition truthy (x : float) : bool :=
  match x with S754_zero _ => false | _ => true end.

End F64.

Abbreviation float := spec_float.

(** ** [str(float(x))] in Python 2.7

    [float.__str__] formats with ['%.12g'] and appends [.0] to a result that
    looks like an integer: twelve significant digits, correctly rounded (ties
    to even), trailing zeros removed, exponent notation when the decimal
    point position is at most [-4] or above [11]. *)

Module PyStr.

Definition digit_char (d : Z) : ascii := ascii_of_nat (48 + Z.to_nat d).

Fixpoint string_of_digits (ds : list Z) : string :=
  match ds with
  | [] => EmptyString
  | d :: ds' => String (digit_char d) (string_of_digits ds')
  end.

Fixpoint zeros (n : nat) : string :=
  match n with O => EmptyString | S n' => String "0" (zeros n') end.

(** [10^j <= num/den], for positive [num] and [den]. *)
Definition pow10_le (j num den : Z) : bool :=
  if 0 <=? j then 10 ^ j * den <=? num else den <=? num * 10 ^ (- j).

Fixpoint find_exp10 (fuel : nat) (num den k : Z) : Z :=
  match fuel with
  | O => k
  | S fuel' =>
      if pow10_le (k + 1) num den then find_exp10 fuel' num den (k + 1) else k
  end.

(** [floor (log10 (num/den))]: the search starts below the value and stops at
    the first power of ten above it. *)
Definition exp10 (num den : Z) : Z :=
  let lo := - (Z.log2 den + 1) in
  find_exp10 (Z.to_nat (Z.log2 num + Z.log2 den + 3)) num den lo.

Definition round_half_even (n d : Z) : Z :=
  let q := n / d in
  let r := n mod d in
  match 2 * r ?= d with
  | Lt => q
  | Gt => q + 1
  | Eq => if Z.even q then q else q + 1
  end.

(** The twelve significant digits of [num/den] and the position of the
    decimal point ([0.d1d2... * 10^decpt]). *)
Definition digits12 (num den : Z) : Z * Z :=
  let k := exp10 num den in
  let s := 11 - k in
  let q := if 0 <=? s then round_half_even (num * 10 ^ s) den
           else round_half_even num (den * 10 ^ (- s)) in
  if 10 ^ 12 <=? q then (10 ^ 11, k + 2) else (q, k + 1).

Fixpoint digits_rev (n : nat) (q : Z) : list Z :=
  match n with
  | O => []
  | S n' => (q mod 10) :: digits_rev n' (q / 10)
  end.

Fixpoint drop_zeros (ds : list Z) : list Z :=
  match ds with
  | 0 :: ds' => drop_zeros ds'
  | _ => ds
  end.

(** Most significant first, trailing zeros removed. *)
Definition sig_digits (q : Z) : list Z := rev (drop_zeros (digits_rev 12 q)).

Definition exponent_digits (x : Z) : string :=
  if x <? 10 then String "0" (string_of_digits [x])
  else if x <? 100 then string_of_digits [x / 10; x mod 10]
  else string_of_digits [x / 100; (x / 10) mod 10; x mod 10].

Definition format_g12 (num den : Z) : string :=
  let '(q, decpt) := digits12 num den in
  let ds := sig_digits q in
  if (decpt <=? -4) || (11 <? decpt) then
    let x := decpt - 1 in
    string_of_digits (firstn 1 ds)
    +:+ (match skipn 1 ds with [] => EmptyString | tl => "." +:+ string_of_digits tl end)
    +:+ "e" +:+ (if x <? 0 then "-" else "+") +:+ exponent_digits (Z.abs x)
  else if decpt <=? 0 then
    "0." +:+ zeros (Z.to_nat (- decpt)) +:+ string_of_digits ds
  else if Z.of_nat (length ds) <=? decpt then
    string_of_digits ds +:+ zeros (Z.to_nat decpt - length ds) +:+ ".0"
  else
    string_of_digits (firstn (Z.to_nat decpt) ds) +:+ "."
    +:+ string_of_digits (skipn (Z.to_nat decpt) ds).

Definition str_float (x : float) : string :=
  match x with
  | S754_nan => "nan"
  | S754_infinity false => "inf"
  | S754_infinity true => "-inf"
  | S754_zero false => "0.0"
  | S754_zero true => "-0.0"
  | S754_finite s m e =>
      (if s then "-" else "") +:+
      (if 0 <=? e then format_g12 (Zpos m * 2 ^ e) 1
       else format_g12 (Zpos m) (2 ^ (- e)))
  end.

End PyStr.

Definition first_char (s : string) : option ascii :=
  match s with
  | EmptyString => None
  | String c _ => Some c
  end.

(** ** numpy *)

Module numpy.
Import F64.

(** [numpy.isclose(a, b, rtol, atol)]: [|a - b| <= atol + rtol * |b|] on
    finite operands, plain equality as soon as one of them is not finite
    ([equal_nan] is left at its default, false). *)
Definition within_tol (x y atol rtol : float) : bool :=
  leb (abs (sub x y)) (add atol (mul rtol (abs y))).

Definition isclose (a b rtol atol : float) : bool :=
  if isfinite a && isfinite b then within_tol a b atol rtol else eqb a b.

(** [numpy.maximum]: a NaN operand wins, otherwise the larger one. *)
Definition maximum (a b : float) : float :=
  if isnan a then a else if ltb b a then a else b.

(** [numpy.max] reduces from the left and refuses an empty sequence. *)
Definition max (s : list float) : option float :=
  match s with
  | [] => None
  | x :: s' => Some (fold_left maximum s' x)
  end.

End numpy.

(** ** Exceptions and results *)

Inductive exn : Type :=
| InvalidArguments (msg : string)
| RuntimeError (msg : string)
| UnboundLocalError (name : string)
| IOError (path : option string)
| ParserError
| KeyError (key : string)
| ValueError
| AttributeError
| FitError.

Inductive result (A : Type) : Type :=
| Ok (a : A)
| Raise (e : exn).
Arguments Ok {A} a.
Arguments Raise {A} e.

#[global] Instance result_ret : MRet result := fun A a => Ok a.
#[global] Instance result_bind : MBind result := fun A B k r =>
  match r with
  | Ok a => k a
  | Raise e => Raise e
  end.

Definition is_ok {A} (r : result A) : bool :=
  match r with Ok _ => true | Raise _ => false end.

(** ** Command line arguments

    The fields the module reads from [args].  An option that was not given is
    [None]; Python tests such values for truth, which an empty string, an
    empty list and a zero also fail. *)

Module Args.
Record t : Type := {
  mode : string;
  hdf5_expression_folder : option string;
  hdf5_expression_file : option string;
  expression_folder : option string;
  expression_file : option string;
  expression_pattern : option string;
  memory_efficient : bool;
  covariates_file : option string;
  covariates : option (list string);
  input_phenos_file : option string;
  input_phenos_column : option string;
  pc_condition_number : option float;
  pc_eigen_ratio : option float
}.
End Args.

Definition truthy_str (o : option string) : bool :=
  match o with
  | Some s => negb (String.eqb s "")
  | None => false
  end.

Definition truthy_list {A} (o : option (list A)) : bool :=
  match o with
  | Some (_ :: _) => true
  | _ => false
  end.

Definition truthy_float (o : option float) : bool :=
  match o with
  | Some x => F64.truthy x
  | None => false
  end.

(** ** Tables on disk and pandas frames *)

(** A whitespace-delimited file, parsed: its header names with their columns
    of numbers.  A column pandas reads as integers is held here as the same
    numbers in binary64. *)
Definition Table : Type := list (string * list float).

(** The files the run can see, by path. *)
Definition Files : Type := gmap string Table.

Fixpoint assoc {A} (name : string) (l : list (string * A)) : option A :=
  match l with
  | [] => None
  | (n, a) :: l' => if String.eqb n name then Some a else assoc name l'
  end.

Definition table_rows (t : Table) : nat :=
  match t with
  | [] => O
  | (_, xs) :: _ => length xs
  end.

Definition rectangular (t : Table) : bool :=
  forallb (fun nc => Nat.eqb (length (snd nc)) (table_rows t)) t.

(** [pandas.read_table(path, sep="\s+")] *)
Definition read_table (fs : Files) (path : option string) : result Table :=
  match path with
  | None => Raise (IOError None)
  | Some p =>
      match fs !! p with
      | None => Raise (IOError (Some p))
      | Some t => if rectangular t then Ok t else Raise ParserError
      end
  end.

(** A column holds 64-bit integers or binary64 numbers; only the latter can
    hold a missing value. *)
Inductive column : Type :=
| IntCol (xs : list Z)
| FloatCol (xs : list float).

Record DataFrame : Type := {
  nrows : nat;
  columns : list (string * column)
}.

Definition column_length (c : column) : nat :=
  match c with
  | IntCol xs => length xs
  | FloatCol xs => length xs
  end.

(** The numbers of a column, as a design matrix takes them. *)
Definition values (c : column) : list float :=
  match c with
  | IntCol xs => map F64.of_Z xs
  | FloatCol xs => xs
  end.

Definition names (df : DataFrame) : list string := map fst (columns df).

(** ** Loading the phenotype and the covariates *)

(** [-999.0], the value upstream files use for missing data, with the
    tolerances the module passes to [numpy.isclose]. *)
Definition sentinel : float := F64.opp (F64.of_Z 999).
Definition sentinel_atol : float := F64.dec 1 3.
Definition sentinel_rtol : float := F64.of_Z 0.

(** [x.loc[numpy.isclose(x, -999.0, atol=1e-3, rtol=0)] = numpy.nan], on one
    cell of [x]. *)
Definition nan_where_sentinel (v : float) : float :=
  if numpy.isclose v sentinel sentinel_rtol sentinel_atol then F64.nan else v.

Definition _pheno_from_file_and_column
    (fs : Files) (path column : option string) : result (list float) :=
  x ← read_table fs path;
  match column with
  | None => Raise ValueError
  | Some c =>
      match assoc c x with
      | None => Raise ValueError
      | Some p => Ok (map nan_where_sentinel p)
      end
  end.

(** [table[names]]: the named columns, in the order asked; the first name the
    table lacks is a [KeyError]. *)
Fixpoint getitem_list (t : Table) (ns : list string) : result Table :=
  match ns with
  | [] => Ok []
  | n :: ns' =>
      match assoc n t with
      | None => Raise (KeyError n)
      | Some xs => rest ← getitem_list t ns'; Ok ((n, xs) :: rest)
      end
  end.

(** With a name listed twice, [covariates[c]] is a frame of two columns and
    the row selector of [covariates.loc] refuses its two-dimensional mask. *)
Definition _get_covariates (fs : Files) (args : Args.t) : result DataFrame :=
  t ← read_table fs (Args.covariates_file args);
  match Args.covariates args with
  | None => Raise (KeyError "None")
  | Some ns =>
      covariates ← getitem_list t ns;
      if bool_decide (NoDup ns) then
        Ok {| nrows := table_rows t;
              columns := map (fun nc => (fst nc, FloatCol (map nan_where_sentinel (snd nc))))
                             covariates |}
      else Raise ValueError
  end.

(** ** Frame operations used by the residualizer *)

(** [df[name] = c] on every column called [name], or as a new last column.
    A frame whose index is still empty takes the index of the value, the
    columns it already has being filled with missing values. *)
Definition reindex_empty (n : nat) (df : DataFrame) : DataFrame :=
  {| nrows := n;
     columns := map (fun nc => (fst nc, FloatCol (replicate n F64.nan))) (columns df) |}.

Definition assign (df : DataFrame) (name : string) (c : column) : DataFrame :=
  {| nrows := nrows df;
     columns :=
       if existsb (String.eqb name) (names df)
       then map (fun nc => if String.eqb (fst nc) name then (fst nc, c) else nc) (columns df)
       else columns df ++ [(name, c)] |}.

Definition setitem (df : DataFrame) (name : string) (c : column) : result DataFrame :=
  let df :=
    if Nat.eqb (nrows df) 0 && negb (Nat.eqb (column_length c) 0)
    then reindex_empty (column_length c) df else df in
  if Nat.eqb (column_length c) (nrows df) then Ok (assign df name c)
  else Raise ValueError.

Definition isna_at (c : column) (i : nat) : bool :=
  match c with
  | IntCol _ => false
  | FloatCol xs => match xs !! i with Some x => F64.isnan x | None => true end
  end.

Definition take_rows (idx : list nat) (c : column) : column :=
  match c with
  | IntCol xs => IntCol (map (fun i => nth i xs 0) idx)
  | FloatCol xs => FloatCol (map (fun i => nth i xs F64.nan) idx)
  end.

(** The rows [dropna] keeps: those with no missing cell. *)
Definition retained (e : DataFrame) : list nat :=
  List.filter (fun i => negb (existsb (fun nc => isna_at (snd nc) i) (columns e)))
              (seq 0 (nrows e)).

Definition dropna (e : DataFrame) : DataFrame :=
  let keep := retained e in
  {| nrows := length keep;
     columns := map (fun nc => (fst nc, take_rows keep (snd nc))) (columns e) |}.

(** [(c == 0).all()], true of a column without rows. *)
Definition all_zero (c : column) : bool :=
  match c with
  | IntCol xs => forallb (Z.eqb 0) xs
  | FloatCol xs => forallb (fun x => F64.eqb x F64.zero) xs
  end.

(** [df[ns]] for names of the frame: each name brings every column called so. *)
Definition getitem_names (df : DataFrame) (ns : list string) : DataFrame :=
  {| nrows := nrows df;
     columns := flat_map (fun n => List.filter (fun nc => String.eqb (fst nc) n) (columns df)) ns |}.

(** [e_[e_.columns[~(e_ == 0).all()]]] *)
Definition drop_zero_columns (e_ : DataFrame) : DataFrame :=
  getitem_names e_ (map fst (List.filter (fun nc => negb (all_zero (snd nc))) (columns e_))).

(** [list.remove(x)]: the first occurrence, [ValueError] when there is none. *)
Fixpoint list_remove (x : string) (l : list string) : result (list string) :=
  match l with
  | [] => Raise ValueError
  | y :: l' =>
      if String.eqb y x then Ok l'
      else r ← list_remove x l'; Ok (y :: r)
  end.

(** [left.merge(right, on="order", how="left")], read at the right's value
    column: every left key brings the values of the right rows with that
    key, or one missing value when there is none. *)
Definition merge_left (left : list Z) (right : list (Z * float)) : list float :=
  flat_map (fun k =>
              match List.filter (fun kv => Z.eqb (fst kv) k) right with
              | [] => [F64.nan]
              | ms => map snd ms
              end) left.

Definition enumerate {A} (s : list A) : list (nat * A) := zip (seq 0 (length s)) s.

(** ** Expression backends and contexts, as data *)

Inductive Expression : Type :=
| HDF5Expression_ExpressionManager (folder pattern : option string)
| PlainTextExpression_ExpressionManagerMemoryEfficient (folder pattern : option string)
| PlainTextExpression_ExpressionManager (folder pattern : option string)
| HDF5Expression_Expression (genes : list string) (h5 : string)
| PlainTextExpression_Expression (genes : list string).

(** The three context classes share their fields; [MTPContext] alone has a
    filter, [HDF5PContext] alone a file handle. *)
Inductive context_class : Type := MTPContext | HDF5PContext | PlainTextPContext.

Module Context.
Record t : Type := {
  class : context_class;
  args : Args.t;
  mode : option string;
  covariates : option DataFrame;
  pheno : option (list float);
  pc_filter : option (list float -> result (list nat));
  expression : option Expression;
  h5 : option string
}.
End Context.

Definition set_pheno (p : list float) (c : Context.t) : Context.t :=
  {| Context.class := Context.class c; Context.args := Context.args c;
     Context.mode := Context.mode c; Context.covariates := Context.covariates c;
     Context.pheno := Some p; Context.pc_filter := Context.pc_filter c;
     Context.expression := Context.expression c; Context.h5 := Context.h5 c |}.

Definition set_mode (m : string) (c : Context.t) : Context.t :=
  {| Context.class := Context.class c; Context.args := Context.args c;
     Context.mode := Some m; Context.covariates := Context.covariates c;
     Context.pheno := Context.pheno c; Context.pc_filter := Context.pc_filter c;
     Context.expression := Context.expression c; Context.h5 := Context.h5 c |}.

Definition set_covariates (d : DataFrame) (c : Context.t) : Context.t :=
  {| Context.class := Context.class c; Context.args := Context.args c;
     Context.mode := Context.mode c; Context.covariates := Some d;
     Context.pheno := Context.pheno c; Context.pc_filter := Context.pc_filter c;
     Context.expression := Context.expression c; Context.h5 := Context.h5 c |}.

Definition set_expression (x : Expression) (c : Context.t) : Context.t :=
  {| Context.class := Context.class c; Context.args := Context.args c;
     Context.mode := Context.mode c; Context.covariates := Context.covariates c;
     Context.pheno := Context.pheno c; Context.pc_filter := Context.pc_filter c;
     Context.expression := Some x; Context.h5 := Context.h5 c |}.

Definition set_h5 (h : string) (c : Context.t) : Context.t :=
  {| Context.class := Context.class c; Context.args := Context.args c;
     Context.mode := Context.mode c; Context.covariates := Context.covariates c;
     Context.pheno := Context.pheno c; Context.pc_filter := Context.pc_filter c;
     Context.expression := Context.expression c; Context.h5 := Some h |}.

(** ** The world of a run: files, storage handles, and what was done to them *)

Inductive event : Type :=
| Opened (h : string)
| Closed (h : string).

Record World : Type := {
  files : Files;
  expression_store : gmap string (list string);
  open_handles : list string;
  trace : list event
}.

(** Computations that may raise and that change the world; what was done
    before an exception stays done. *)
Definition M (A : Type) : Type := World -> result A * World.

Definition retM {A} (a : A) : M A := fun w => (Ok a, w).

Definition bindM {A B} (m : M A) (k : A -> M B) : M B :=
  fun w =>
    match m w with
    | (Ok a, w') => k a w'
    | (Raise e, w') => (Raise e, w')
    end.

Definition readM {A} (f : World -> result A) : M A := fun w => (f w, w).

(** ** The module *)

Section Utilities.

(** The mode constants of [MultiPrediXcanAssociation.MTPMode] and of
    [PrediXcanAssociation.PMode], which the module imports. *)
Variables MTPMode_K_LINEAR MTPMode_K_LOGISTIC : string.
Variables MTPMode_K_MODES PMode_K_MODES : list string.

(** The fit the residualizer delegates to patsy and statsmodels: from the
    response and the named predictor columns (the intercept is patsy's), the
    fitted values [X b] of ordinary least squares, or the error of the fit. *)
Variable OLS_fittedvalues : list float -> list (string * list float) -> result (list float).

(** *** Residualizer *)

(** Lines 187 to 196 of the source: the working frame [e], the cleaned frame
    [e_] and the predictor names. *)
Definition _get_residual_frames (pheno : list float) (covariates : DataFrame)
  : result (DataFrame * DataFrame * list string) :=
  let e := covariates in
  e ← setitem e "order" (IntCol (map Z.of_nat (seq 0 (nrows e))));
  e ← setitem e "pheno" (FloatCol pheno);
  let e_ := dropna e in
  let e_ := drop_zero_columns e_ in
  let keys := names e_ in
  keys ← list_remove "pheno" keys;
  keys ← list_remove "order" keys;
  Ok (e, e_, keys).

(** The columns the formula ["pheno ~ k1 + ... + kn"] names in [e_]. *)
Fixpoint design (e_ : DataFrame) (keys : list string) : result (list (string * list float)) :=
  match keys with
  | [] => Ok []
  | k :: keys' =>
      match assoc k (columns e_) with
      | None => Raise (KeyError k)
      | Some c => X ← design e_ keys'; Ok ((k, values c) :: X)
      end
  end.

(** [result.resid]: the response minus the fitted values. *)
Definition resid (y fitted : list float) : result (list float) :=
  if Nat.eqb (length fitted) (length y) then Ok (zip_with F64.sub y fitted)
  else Raise ValueError.

(** [pandas.DataFrame(covariates)] wraps the block manager of [covariates]
    itself ([copy] is false), so the two column assignments are made on the
    caller's frame as well: the second component of the result is that frame
    as the call leaves it.  The last lines fail when [e] already has a
    column called [residual], which the merge renames. *)
Definition _get_residual (pheno : list float) (covariates : DataFrame)
  : result (list float * DataFrame) :=
  '(e, e_, keys) ← _get_residual_frames pheno covariates;
  match assoc "pheno" (columns e_) with
  | None => Raise (KeyError "pheno")
  | Some y =>
      X ← design e_ keys;
      fitted ← OLS_fittedvalues (values y) X;
      r ← resid (values y) fitted;
      e_ ← setitem e_ "residual" (FloatCol r);
      if existsb (String.eqb "residual") (names e) then Raise (KeyError "residual")
      else
        match assoc "order" (columns e), assoc "order" (columns e_),
              assoc "residual" (columns e_) with
        | Some (IntCol lk), Some (IntCol rk), Some (FloatCol rs) =>
            Ok (merge_left lk (zip rk rs), e)
        | _, _, _ => Raise (KeyError "order")
        end
  end.

(** *** Principal component filter *)

Definition _filter_eigen_values_from_max (s : list float) (ratio : float) : result (list nat) :=
  match numpy.max s with
  | None => Raise ValueError
  | Some s_max =>
      Ok (map fst (List.filter (fun ix => F64.ltb (F64.mul s_max ratio) (snd ix)) (enumerate s)))
  end.

Definition _filter_from_args (args : Args.t) : option (list float -> result (list nat)) :=
  if truthy_float (Args.pc_condition_number args) then
    Some (fun x => _filter_eigen_values_from_max x
                     (F64.div (F64.of_Z 1) (default F64.nan (Args.pc_condition_number args))))
  else if truthy_float (Args.pc_eigen_ratio args) then
    Some (fun x => _filter_eigen_values_from_max x
                     (default F64.nan (Args.pc_eigen_ratio args)))
  else None.

(** *** Expression backends *)

Definition _expression_from_args (args : Args.t) : result Expression :=
  if truthy_str (Args.hdf5_expression_folder args) then
    Ok (HDF5Expression_ExpressionManager
          (Args.hdf5_expression_folder args) (Args.expression_pattern args))
  else if Args.memory_efficient args && truthy_str (Args.expression_folder args) then
    Ok (PlainTextExpression_ExpressionManagerMemoryEfficient
          (Args.expression_folder args) (Args.expression_pattern args))
  else if truthy_str (Args.expression_folder args) then
    Ok (PlainTextExpression_ExpressionManager
          (Args.expression_folder args) (Args.expression_pattern args))
  else Raise (RuntimeError "Could not build expression from context").

(** *** Contexts *)

(** [MTPContext.__init__] *)
Definition MTPContext_init (args : Args.t) (expression : Expression) : Context.t :=
  {| Context.class := MTPContext;
     Context.args := args;
     Context.mode := None;
     Context.covariates := None;
     Context.pheno := None;
     Context.pc_filter := _filter_from_args args;
     Context.expression := Some expression;
     Context.h5 := None |}.

(** [_PContext.__init__], as [HDF5PContext] and [PlainTextPContext] extend it *)
Definition PContext_init (cls : context_class) (args : Args.t) : Context.t :=
  {| Context.class := cls;
     Context.args := args;
     Context.mode := None;
     Context.covariates := None;
     Context.pheno := None;
     Context.pc_filter := None;
     Context.expression := None;
     Context.h5 := None |}.

Definition get_pheno (self : Context.t) := Context.pheno self.
Definition get_mode (self : Context.t) := Context.mode self.
Definition get_covariates (self : Context.t) := Context.covariates self.

Definition _check_args (args : Args.t) : result unit :=
  if negb (bool_decide (Args.mode args ∈ MTPMode_K_MODES))
  then Raise (InvalidArguments "Invalid mode") else Ok tt.

Definition mp_context_from_args (args : Args.t) : result Context.t :=
  _ ← _check_args args;
  expression ← _expression_from_args args;
  Ok (MTPContext_init args expression).

Definition _check_args_file (args : Args.t) : result unit :=
  if negb (bool_decide (Args.mode args ∈ PMode_K_MODES))
  then Raise (InvalidArguments "Invalid mode") else Ok tt.

(** With neither file given, [context] is read before any assignment. *)
Definition p_context_from_args (args : Args.t) : result Context.t :=
  _ ← _check_args_file args;
  if truthy_str (Args.hdf5_expression_file args) then
    Ok (PContext_init HDF5PContext args)
  else if truthy_str (Args.expression_file args) then
    Ok (PContext_init PlainTextPContext args)
  else Raise (UnboundLocalError "context").

(** *** Phenotype preparation *)

Definition binomial_strings : gset string := {[ "0.0"; "1.0"; "nan" ]}.

(** The phenotype is binomial for the module when the texts of its values
    are exactly ['0.0'], ['1.0'] and ['nan']. *)
Definition pheno_strings (pheno : list float) : gset string :=
  list_to_set (map PyStr.str_float pheno).

Definition _prepare_phenotype (fs : Files) (context : Context.t) : result Context.t :=
  let args := Context.args context in
  pheno ← _pheno_from_file_and_column fs (Args.input_phenos_file args)
                                         (Args.input_phenos_column args);
  let context := set_pheno pheno context in
  _ ← (if String.eqb (Args.mode args) MTPMode_K_LOGISTIC then
         let v := pheno_strings pheno in
         if bool_decide (v ≠ binomial_strings) then
           Raise (InvalidArguments
                    "Logistic regression was asked but phenotype is not binomial")
         else Ok tt
       else Ok tt);
  let context := set_mode (Args.mode args) context in
  if truthy_str (Args.covariates_file args) && truthy_list (Args.covariates args) then
    let context := set_mode MTPMode_K_LINEAR context in
    covariates ← _get_covariates fs args;
    let context := set_covariates covariates context in
    '(residual, covariates) ← _get_residual pheno covariates;
    Ok (set_pheno residual (set_covariates covariates context))
  else Ok context.

(** *** Scoped entry and exit *)

(** Modelled from the spec: the storage side of [HDF5Expression] and
    [PlainTextExpression], which are not in this file.  A backend opens its
    storage handles on entry and closes them on exit; opening fails when the
    path does not exist. *)
Definition open_storage (path : option string) : M (list string * string) :=
  fun w =>
    match path with
    | None => (Raise (IOError None), w)
    | Some p =>
        match expression_store w !! p with
        | None => (Raise (IOError (Some p)), w)
        | Some genes =>
            (Ok (genes, p),
             {| files := files w; expression_store := expression_store w;
                open_handles := p :: open_handles w;
                trace := trace w ++ [Opened p] |})
        end
    end.

Definition close_storage (h : string) : M unit :=
  fun w =>
    (Ok tt,
     {| files := files w; expression_store := expression_store w;
        open_handles := List.filter (fun x => negb (String.eqb x h)) (open_handles w);
        trace := trace w ++ [Closed h] |}).

Definition manager_folder (x : Expression) : option string :=
  match x with
  | HDF5Expression_ExpressionManager folder _ => folder
  | PlainTextExpression_ExpressionManagerMemoryEfficient folder _ => folder
  | PlainTextExpression_ExpressionManager folder _ => folder
  | _ => None
  end.

(** Modelled from the spec: [expression.enter()] and [expression.exit()] of
    the expression managers. *)
Definition Expression_enter (x : option Expression) : M unit :=
  match x with
  | None => fun w => (Raise AttributeError, w)
  | Some x => bindM (open_storage (manager_folder x)) (fun _ => retM tt)
  end.

Definition Expression_exit (x : option Expression) : M unit :=
  match x with
  | None => fun w => (Raise AttributeError, w)
  | Some x =>
      match manager_folder x with
      | None => retM tt
      | Some folder => close_storage folder
      end
  end.

(** Modelled from the spec: [HDF5Expression._structure_file] opens the file
    and returns its genes with the handle, [HDF5Expression._close_file]
    closes the handle. *)
Definition HDF5Expression__structure_file (path : option string) : M (list string * string) :=
  open_storage path.

Definition HDF5Expression__close_file (h5 : option string) : M unit :=
  match h5 with
  | None => fun w => (Raise AttributeError, w)
  | Some h => close_storage h
  end.

(** Modelled from the spec: [PlainTextExpression.Expression(path)] reads the
    whole file and keeps no handle. *)
Definition PlainTextExpression_Expression_init (path : option string) : M Expression :=
  readM (fun w =>
           match path with
           | None => Raise (IOError None)
           | Some p =>
               match expression_store w !! p with
               | None => Raise (IOError (Some p))
               | Some genes => Ok (PlainTextExpression_Expression genes)
               end
           end).

Definition MTPContext__enter__ (self : Context.t) : M Context.t :=
  bindM (Expression_enter (Context.expression self)) (fun _ =>
  readM (fun w => _prepare_phenotype (files w) self)).

Definition MTPContext__exit__ (self : Context.t) : M unit :=
  Expression_exit (Context.expression self).

Definition HDF5PContext__enter__ (self : Context.t) : M Context.t :=
  bindM (HDF5Expression__structure_file (Args.hdf5_expression_file (Context.args self)))
        (fun gh =>
  let self := set_h5 (snd gh) self in
  let self := set_expression (HDF5Expression_Expression (fst gh) (snd gh)) self in
  readM (fun w => _prepare_phenotype (files w) self)).

Definition HDF5PContext__exit__ (self : Context.t) : M unit :=
  HDF5Expression__close_file (Context.h5 self).

Definition PlainTextPContext__enter__ (self : Context.t) : M Context.t :=
  bindM (PlainTextExpression_Expression_init (Args.expression_file (Context.args self)))
        (fun x =>
  let self := set_expression x self in
  readM (fun w => _prepare_phenotype (files w) self)).

Definition PlainTextPContext__exit__ (self : Context.t) : M unit := retM tt.

Definition __enter__ (self : Context.t) : M Context.t :=
  match Context.class self with
  | MTPContext => MTPContext__enter__ self
  | HDF5PContext => HDF5PContext__enter__ self
  | PlainTextPContext => PlainTextPContext__enter__ self
  end.

Definition __exit__ (self : Context.t) : M unit :=
  match Context.class self with
  | MTPContext => MTPContext__exit__ self
  | HDF5PContext => HDF5PContext__exit__ self
  | PlainTextPContext => PlainTextPContext__exit__ self
  end.

(** Python's [with context as c: body]: [__exit__] runs once the body is
    left, normally or by an exception, and not at all when [__enter__]
    raised; it returns [None] here, so an exception of the body goes on to
    the caller. *)
Definition with_ {A} (context : Context.t) (body : Context.t -> M A) : M A :=
  fun w =>
    match __enter__ context w with
    | (Raise e, w1) => (Raise e, w1)
    | (Ok c, w1) =>
        let (r, w2) := body c w1 in
        match __exit__ c w2 with
        | (Ok _, w3) => (r, w3)
        | (Raise e, w3) => (Raise e, w3)
        end
    end.

End Utilities.

(** ** A reference fit and sample inputs *)

Definition fsum (xs : list float) : float := fold_left F64.add xs F64.zero.

Definition mean (xs : list float) : float :=
  F64.div (fsum xs) (F64.of_Z (Z.of_nat (length xs))).

(** Least squares in closed form, for an intercept and one predictor; it
    stands for the fitting library where a fit has to run. *)
Definition simple_ols (y : list float) (X : list (string * list float)) : result (list float) :=
  match y, X with
  | [], _ => Raise FitError
  | _, [(_, x)] =>
      let xb := mean x in
      let yb := mean y in
      let sxy := fsum (zip_with (fun a b => F64.mul (F64.sub a xb) (F64.sub b yb)) x y) in
      let sxx := fsum (map (fun a => F64.mul (F64.sub a xb) (F64.sub a xb)) x) in
      if F64.eqb sxx F64.zero then Raise FitError
      else
        let b := F64.div sxy sxx in
        let a := F64.sub yb (F64.mul b xb) in
        Ok (map (fun v => F64.add a (F64.mul b v)) x)
  | _, _ => Raise FitError
  end.

Definition sample_args : Args.t :=
  {| Args.mode := "linear";
     Args.hdf5_expression_folder := None;
     Args.hdf5_expression_file := None;
     Args.expression_folder := Some "expr";
     Args.expression_file := None;
     Args.expression_pattern := None;
     Args.memory_efficient := false;
     Args.covariates_file := Some "cov.txt";
     Args.covariates := Some ["age"];
     Args.input_phenos_file := Some "pheno.txt";
     Args.input_phenos_column := Some "y";
     Args.pc_condition_number := None;
     Args.pc_eigen_ratio := None |}.

(** The scenario of the specification: phenotype [1.0, -999.0, 0.5, 2.0],
    covariate [age = 10, 20, 30, 40]. *)
Definition sample_files : Files :=
  {[ "pheno.txt" := [("y", [F64.of_Z 1; F64.opp (F64.of_Z 999); F64.dec 5 1; F64.of_Z 2])];
     "cov.txt" := [("age", map F64.of_Z [10; 20; 30; 40]);
                   ("sex", map F64.of_Z [0; 0; 0; 0])] ]}.

Definition not_binomial : exn :=
  InvalidArguments "Logistic regression was asked but phenotype is not binomial".

(** ** The selection order as the specification words it *)

Inductive backend : Type :=
| StructuredMultiTissue
| MemoryEfficientPlainText
| StandardPlainText
| SingleFilePlainText
| StructuredSingleTissue.

(** One chain over all the options, in the order the specification gives;
    [None] stands for its configuration error. *)
Definition spec_backend_priority (args : Args.t) : option backend :=
  if truthy_str (Args.hdf5_expression_folder args) then Some StructuredMultiTissue
  else if truthy_str (Args.expression_folder args) && Args.memory_efficient args
  then Some MemoryEfficientPlainText
  else if truthy_str (Args.expression_folder args) then Some StandardPlainText
  else if truthy_str (Args.expression_file args) then Some SingleFilePlainText
  else if truthy_str (Args.hdf5_expression_file args) then Some StructuredSingleTissue
  else None.

Definition backend_of_expression (x : Expression) : backend :=
  match x with
  | HDF5Expression_ExpressionManager _ _ => StructuredMultiTissue
  | PlainTextExpression_ExpressionManagerMemoryEfficient _ _ => MemoryEfficientPlainText
  | PlainTextExpression_ExpressionManager _ _ => StandardPlainText
  | HDF5Expression_Expression _ _ => StructuredSingleTissue
  | PlainTextExpression_Expression _ => SingleFilePlainText
  end.

(** The backend a context has or, for the single-tissue classes, will open
    on entry. *)
Definition context_backend (c : Context.t) : option backend :=
  match Context.class c with
  | HDF5PContext => Some StructuredSingleTissue
  | PlainTextPContext => Some SingleFilePlainText
  | MTPContext => option_map backend_of_expression (Context.expression c)
  end.

Definition selected (r : result Context.t) : option backend :=
  match r with
  | Ok c => context_backend c
  | Raise _ => None
  end.

(** Both single-tissue files given, and no folder. *)
Definition both_files_args : Args.t :=
  {| Args.mode := "linear";
     Args.hdf5_expression_folder := None;
     Args.hdf5_expression_file := Some "expression.h5";
     Args.expression_folder := None;
     Args.expression_file := Some "expression.txt";
     Args.expression_pattern := None;
     Args.memory_efficient := false;
     Args.covariates_file := None;
     Args.covariates := None;
     Args.input_phenos_file := Some "pheno.txt";
     Args.input_phenos_column := Some "y";
     Args.pc_condition_number := None;
     Args.pc_eigen_ratio := None |}.

Definition sample_modes : list string := ["linear"; "logistic"].

(** ** Rows and columns of the residualizer, in terms of its inputs *)

(** The column [e["order"]] of a frame of [n] rows. *)
Definition order_column (n : nat) : column := IntCol (map Z.of_nat (seq 0 n)).

(** The working frame [e] once both columns are assigned. *)
Definition working_frame (pheno : list float) (covariates : DataFrame) : DataFrame :=
  assign (assign covariates "order" (order_column (nrows covariates)))
         "pheno" (FloatCol pheno).

(** A covariate column called [order] or [pheno] is overwritten by the
    residualizer's own. *)
Definition working_name (n : string) : bool :=
  String.eqb n "order" || String.eqb n "pheno".

(** Row [i] has no missing value, in the phenotype or in a covariate. *)
Definition row_complete (pheno : list float) (covariates : DataFrame) (i : nat) : bool :=
  negb (isna_at (FloatCol pheno) i) &&
  forallb (fun nc => working_name (fst nc) || negb (isna_at (snd nc) i))
          (columns covariates).

Definition complete_rows (pheno : list float) (covariates : DataFrame) : list nat :=
  List.filter (row_complete pheno covariates) (seq 0 (length pheno)).

(** ** More sample inputs *)

(** Logistic mode, with and without covariates. *)
Definition logistic_covariates_args : Args.t :=
  {| Args.mode := "logistic";
     Args.hdf5_expression_folder := None;
     Args.hdf5_expression_file := None;
     Args.expression_folder := Some "expr";
     Args.expression_file := None;
     Args.expression_pattern := None;
     Args.memory_efficient := false;
     Args.covariates_file := Some "cov.txt";
     Args.covariates := Some ["age"];
     Args.input_phenos_file := Some "pheno.txt";
     Args.input_phenos_column := Some "y";
     Args.pc_condition_number := None;
     Args.pc_eigen_ratio := None |}.

Definition logistic_args : Args.t :=
  {| Args.mode := "logistic";
     Args.hdf5_expression_folder := None;
     Args.hdf5_expression_file := None;
     Args.expression_folder := Some "expr";
     Args.expression_file := None;
     Args.expression_pattern := None;
     Args.memory_efficient := false;
     Args.covariates_file := None;
     Args.covariates := None;
     Args.input_phenos_file := Some "pheno.txt";
     Args.input_phenos_column := Some "y";
     Args.pc_condition_number := None;
     Args.pc_eigen_ratio := None |}.

(** A case/control phenotype without a missing value, and one with. *)
Definition binomial_files : Files :=
  {[ "pheno.txt" := [("y", map F64.of_Z [0; 1; 1; 0])] ]}.

Definition binomial_missing_files : Files :=
  {[ "pheno.txt" := [("y", [F64.of_Z 0; F64.of_Z 1; F64.opp (F64.of_Z 999); F64.of_Z 0])] ]}.

(** The phenotype and the covariates of the scenario, as loaded. *)
Definition sample_pheno : list float :=
  [F64.of_Z 1; F64.nan; F64.dec 5 1; F64.of_Z 2].

Definition sample_covariates : DataFrame :=
  {| nrows := 4;
     columns := [("age", FloatCol (map F64.of_Z [10; 20; 30; 40]));
                 ("sex", FloatCol (map F64.of_Z [0; 0; 0; 0]))] |}.

Definition zero_pheno : list float := [F64.zero; F64.nan; F64.opp F64.zero; F64.zero].

Definition sample_world : World :=
  {| files := sample_files;
     expression_store := {[ "expr" := ["ENSG01"; "ENSG02"] ]};
     open_handles := [];
     trace := [] |}.

Definition sample_context : Context.t :=
  MTPContext_init sample_args (PlainTextExpression_ExpressionManager (Some "expr") None).

Definition logistic_context : Context.t :=
  MTPContext_init logistic_covariates_args
                  (PlainTextExpression_ExpressionManager (Some "expr") None).

Definition sample_entry : result Context.t * World :=
  __enter__ "linear" "logistic" simple_ols sample_context sample_world.

Definition entered_context : Context.t :=
  match fst sample_entry with
  | Ok c => c
  | Raise _ => sample_context
  end.

Definition entered_world : World := snd sample_entry.

(** A scoped body that raises. *)
Definition failing_body : Context.t -> M unit := fun _ w => (Raise FitError, w).


Definition sample_eigenvalues : list float :=
  [F64.of_Z 6; F64.dec 1 1; F64.of_Z 3; F64.dec 2 1].

(** The frames of the residualizer on the scenario, and its residuals. *)
Definition sample_e : DataFrame := working_frame sample_pheno sample_covariates.
Definition sample_e_ : DataFrame := drop_zero_columns (dropna sample_e).
Definition sample_residual : list float :=
  [F64.dec 25 2; F64.nan; F64.opp (F64.dec 75 2); F64.dec 5 1].

(** A case/control phenotype with one missing value, and a covariate. *)
Definition logistic_files : Files :=
  {[ "pheno.txt" :=
       [("y", [F64.of_Z 0; F64.of_Z 1; F64.opp (F64.of_Z 999); F64.of_Z 1; F64.of_Z 0])];
     "cov.txt" := [("age", map F64.of_Z [10; 20; 30; 40; 50])] ]}.

Definition logistic_prepared : Context.t :=
  match _prepare_phenotype "linear" "logistic" simple_ols logistic_files logistic_context with
  | Ok c => c
  | Raise _ => logistic_context
  end.

(** ** Sample inputs for the edges *)


(** A mode that is not an allowed one. *)
Definition poisson_args : Args.t :=
  {| Args.mode := "poisson";
     Args.hdf5_expression_folder := Some "expr";
     Args.hdf5_expression_file := Some "expression.h5";
     Args.expression_folder := None;
     Args.expression_file := None;
     Args.expression_pattern := None;
     Args.memory_efficient := false;
     Args.covariates_file := None;
     Args.covariates := None;
     Args.input_phenos_file := Some "pheno.txt";
     Args.input_phenos_column := Some "y";
     Args.pc_condition_number := None;
     Args.pc_eigen_ratio := None |}.

(** A single plain-text expression file. *)
Definition plain_text_args : Args.t :=
  {| Args.mode := "linear";
     Args.hdf5_expression_folder := None;
     Args.hdf5_expression_file := None;
     Args.expression_folder := None;
     Args.expression_file := Some "expression.txt";
     Args.expression_pattern := None;
     Args.memory_efficient := false;
     Args.covariates_file := None;
     Args.covariates := None;
     Args.input_phenos_file := Some "pheno.txt";
     Args.input_phenos_column := Some "y";
     Args.pc_condition_number := None;
     Args.pc_eigen_ratio := None |}.

Definition single_tissue_world : World :=
  {| files := sample_files;
     expression_store := {[ "expression.txt" := ["ENSG01"]; "expression.h5" := ["ENSG01"; "ENSG02"] ]};
     open_handles := [];
     trace := [] |}.

Definition plain_text_context : Context.t := PContext_init PlainTextPContext plain_text_args.

Definition plain_text_entry : result Context.t * World :=
  __enter__ "linear" "logistic" simple_ols plain_text_context single_tissue_world.

Definition plain_text_entered : Context.t :=
  match fst plain_text_entry with
  | Ok c => c
  | Raise _ => plain_text_context
  end.

Definition hdf5_context : Context.t := PContext_init HDF5PContext both_files_args.

Definition hdf5_entry : result Context.t * World :=
  __enter__ "linear" "logistic" simple_ols hdf5_context single_tissue_world.

Definition hdf5_entered : Context.t :=
  match fst hdf5_entry with
  | Ok c => c
  | Raise _ => hdf5_context
  end.

(** The covariate frame of the scenario as the loader returns it, a frame
    with a column called [residual], a phenotype complete on its first row
    only, and a phenotype without missing values with its residuals. *)
Definition age_covariates : DataFrame :=
  {| nrows := 4;
     columns := [("age", FloatCol (map F64.of_Z [10; 20; 30; 40]))] |}.

Definition residual_covariates : DataFrame :=
  {| nrows := 4;
     columns := [("age", FloatCol (map F64.of_Z [10; 20; 30; 40]));
                 ("residual", FloatCol (map F64.of_Z [1; 2; 3; 4]))] |}.

Definition first_row_pheno : list float := [F64.of_Z 1; F64.nan; F64.nan; F64.nan].

Definition complete_pheno : list float := map F64.of_Z [1; 3; 2; 5].

Definition complete_residual : list float :=
  match _get_residual simple_ols complete_pheno age_covariates with
  | Ok (r, _) => r
  | Raise _ => []
  end.

Definition nan_eigenvalues : list float := [F64.of_Z 6; F64.nan; F64.of_Z 3].

(** ** Properties *)

(** *** Loading: the sentinel becomes a missing value *)



Lemma assoc_Some_elem {A} (n : string) (l : list (string * A)) (a : A) :
  assoc n l = Some a -> (n, a) ∈ l.
Proof.
  induction l as [|[m b] l IH]; simpl; [discriminate|].
  destruct (String.eqb_spec m n) as [->|Hne].
  - intros [= ->]. apply list_elem_of_here.
  - intros H. apply list_elem_of_further. auto.
Qed.


Lemma getitem_list_Ok (t : Table) (ns : list string) (cols : Table) :
  getitem_list t ns = Ok cols ->
  map fst cols = ns /\
  forall c, c ∈ ns -> exists raw, assoc c t = Some raw /\ assoc c cols = Some raw.
Proof.
  revert cols. induction ns as [|n ns IH]; simpl; intros cols H.
  - injection H as <-. split; [reflexivity|]. intros c Hc. inversion Hc.
  - destruct (assoc n t) as [xs|] eqn:Hn; [|discriminate].
    destruct (getitem_list t ns) as [rest|e] eqn:Hrest; simpl in H; [|discriminate].
    injection H as <-. destruct (IH rest eq_refl) as [Hfst Hall].
    split; [simpl; f_equal; exact Hfst|].
    intros c Hc. simpl. destruct (String.eqb_spec n c) as [->|Hne].
    + exists xs. auto.
    + apply elem_of_cons in Hc as [->|Hc]; [contradiction|]. auto.
Qed.

Lemma read_table_rows (fs : Files) (path : option string) (t : Table) :
  read_table fs path = Ok t ->
  forall n xs, (n, xs) ∈ t -> length xs = table_rows t.
Proof.
  unfold read_table. destruct path as [p|]; [|discriminate].
  destruct (fs !! p) as [t'|]; [|discriminate].
  destruct (rectangular t') eqn:Hr; [|discriminate].
  intros [= ->] n xs Hin. unfold rectangular in Hr.
  rewrite forallb_forall in Hr. apply list_elem_of_In in Hin.
  specialize (Hr _ Hin). simpl in Hr. apply Nat.eqb_eq in Hr. exact Hr.
Qed.


(** The loader only returns frames with distinct column names. *)
Lemma get_covariates_distinct (fs : Files) (args : Args.t) (df : DataFrame) :
  _get_covariates fs args = Ok df -> NoDup (names df).
Proof.
  unfold _get_covariates. intros H.
  destruct (read_table fs (Args.covariates_file args)) as [t|e];
    cbn [mbind result_bind] in H; [|discriminate].
  destruct (Args.covariates args) as [ns|]; [|discriminate].
  destruct (getitem_list t ns) as [cols|e] eqn:Hcols;
    cbn [mbind result_bind] in H; [|discriminate].
  destruct (bool_decide (NoDup ns)) eqn:Hnd; [|discriminate].
  injection H as <-. apply bool_decide_eq_true_1 in Hnd.
  destruct (getitem_list_Ok _ _ _ Hcols) as [Hfst _].
  unfold names. cbn [columns]. rewrite map_map.
  rewrite (map_ext _ fst) by reflexivity. rewrite Hfst. exact Hnd.
Qed.

(** *** The principal component filter *)

Lemma filter_enumerate_from {A} (P : A -> bool) (s : list A) (a : nat) :
  map fst (List.filter (fun ix => P (snd ix)) (zip (seq a (length s)) s)) =
  List.filter (fun i => match s !! (i - a)%nat with Some x => P x | None => false end)
              (seq a (length s)).
Proof.
  revert a. induction s as [|x s IH]; intros a; [reflexivity|].
  cbn [length seq zip zip_with List.filter snd].
  rewrite Nat.sub_diag. cbn [lookup list_lookup].
  assert (Htl : List.filter
                  (fun i => match (x :: s) !! (i - a)%nat with
                            | Some y => P y | None => false end)
                  (seq (S a) (length s)) =
                List.filter
                  (fun i => match s !! (i - S a)%nat with
                            | Some y => P y | None => false end)
                  (seq (S a) (length s))).
  { apply filter_ext_in. intros i Hi. apply in_seq in Hi.
    replace (i - a)%nat with (S (i - S a)) by lia. reflexivity. }
  destruct (P x); cbn [map fst]; rewrite Htl, <- IH; reflexivity.
Qed.

Lemma filter_eigen_values_indices (s : list float) (ratio m : float) :
  numpy.max s = Some m ->
  _filter_eigen_values_from_max s ratio =
  Ok (List.filter
        (fun i => match s !! i with
                  | Some x => F64.ltb (F64.mul m ratio) x
                  | None => false
                  end)
        (seq 0 (length s))).
Proof.
  intros Hm. unfold _filter_eigen_values_from_max. rewrite Hm. f_equal.
  unfold enumerate.
  rewrite (filter_enumerate_from (fun x => F64.ltb (F64.mul m ratio) x) s 0).
  apply filter_ext. intros i. rewrite Nat.sub_0_r. reflexivity.
Qed.


(** *** Backend selection *)

(** C2, as stated, fails.  With both single-tissue files given, the order of
    the specification picks the single-file plain-text backend and the
    single-tissue selection the structured one; and the multi-tissue
    selection, which that order lets fall through to the files, raises. *)
Lemma backend_priority_counterexample :
  spec_backend_priority both_files_args = Some SingleFilePlainText /\
  selected (p_context_from_args sample_modes both_files_args) = Some StructuredSingleTissue /\
  mp_context_from_args sample_modes both_files_args =
    Raise (RuntimeError "Could not build expression from context") /\
  selected (p_context_from_args sample_modes both_files_args) <>
    spec_backend_priority both_files_args.
Proof. vm_compute. repeat split; congruence. Qed.

(** C2, amended.  The multi-tissue selection produces the structured
    multi-tissue manager when the hdf5 folder is given, else the
    memory-efficient plain-text manager when the flag and the expression
    folder are, else the standard plain-text manager when the expression
    folder is, and raises [RuntimeError] otherwise, whatever the file options
    are.  The single-tissue selection, for a valid mode, produces the
    structured single-tissue context when the hdf5 expression file is given,
    else the single-file plain-text context when the expression file is. *)
Theorem backend_selection_by_entry_point (modes : list string) (args : Args.t) :
  (truthy_str (Args.hdf5_expression_folder args) = true ->
   _expression_from_args args =
   Ok (HDF5Expression_ExpressionManager
         (Args.hdf5_expression_folder args) (Args.expression_pattern args))) /\
  (truthy_str (Args.hdf5_expression_folder args) = false ->
   truthy_str (Args.expression_folder args) = true ->
   _expression_from_args args =
   Ok ((if Args.memory_efficient args
        then PlainTextExpression_ExpressionManagerMemoryEfficient
        else PlainTextExpression_ExpressionManager)
         (Args.expression_folder args) (Args.expression_pattern args))) /\
  (truthy_str (Args.hdf5_expression_folder args) = false ->
   truthy_str (Args.expression_folder args) = false ->
   _expression_from_args args =
   Raise (RuntimeError "Could not build expression from context")) /\
  (Args.mode args ∈ modes ->
   mp_context_from_args modes args =
   match _expression_from_args args with
   | Ok x => Ok (MTPContext_init args x)
   | Raise e => Raise e
   end) /\
  (Args.mode args ∈ modes ->
   truthy_str (Args.hdf5_expression_file args) = true ->
   p_context_from_args modes args = Ok (PContext_init HDF5PContext args)) /\
  (Args.mode args ∈ modes ->
   truthy_str (Args.hdf5_expression_file args) = false ->
   truthy_str (Args.expression_file args) = true ->
   p_context_from_args modes args = Ok (PContext_init PlainTextPContext args)).
Proof.
  unfold _expression_from_args, mp_context_from_args, p_context_from_args,
    _check_args, _check_args_file.
  repeat split.
  - intros ->. reflexivity.
  - intros -> ->. rewrite andb_true_r. destruct (Args.memory_efficient args); reflexivity.
  - intros -> ->. rewrite andb_false_r. reflexivity.
  - intros Hm. rewrite (bool_decide_eq_true_2 _ Hm). reflexivity.
  - intros Hm ->. rewrite (bool_decide_eq_true_2 _ Hm). reflexivity.
  - intros Hm -> ->. rewrite (bool_decide_eq_true_2 _ Hm). reflexivity.
Qed.

(** *** Frames: which columns an operation leaves *)

Lemma assoc_In {A} (n : string) (l : list (string * A)) (a : A) :
  assoc n l = Some a -> In (n, a) l.
Proof. intros H. apply list_elem_of_In, assoc_Some_elem, H. Qed.

Lemma assoc_in_names {A} (n : string) (l : list (string * A)) :
  In n (map fst l) -> exists a, assoc n l = Some a.
Proof.
  induction l as [|[m b] l IH]; simpl; [tauto|].
  intros [->|H].
  - rewrite String.eqb_refl. eauto.
  - destruct (String.eqb m n); eauto.
Qed.

Lemma names_In (df : DataFrame) (m : string) :
  In m (names df) <-> exists d, In (m, d) (columns df).
Proof.
  unfold names. rewrite in_map_iff. split.
  - intros [[m' d] [Hm Hin]]. simpl in Hm. subst. eauto.
  - intros [d Hin]. exists (m, d). auto.
Qed.

Lemma existsb_names (df : DataFrame) (n : string) :
  existsb (String.eqb n) (names df) = true <-> In n (names df).
Proof.
  rewrite existsb_exists. split.
  - intros [x [Hin Heq]]. apply String.eqb_eq in Heq. subst. exact Hin.
  - intros Hin. exists n. split; [exact Hin | apply String.eqb_refl].
Qed.

Lemma in_assign (df : DataFrame) (n : string) (c : column) (m : string) (d : column) :
  In (m, d) (columns (assign df n c)) <->
  (m <> n /\ In (m, d) (columns df)) \/ (m = n /\ d = c).
Proof.
  unfold assign. cbn [columns].
  destruct (existsb (String.eqb n) (names df)) eqn:Hex.
  - apply existsb_names, names_In in Hex. destruct Hex as [d0 Hd0].
    rewrite in_map_iff. split.
    + intros [[m' d'] [Heq Hin]]. cbn [fst] in Heq.
      destruct (String.eqb_spec m' n) as [->|Hne].
      * injection Heq as <- <-. right. auto.
      * injection Heq as <- <-. left. auto.
    + intros [[Hne Hin]|[-> ->]].
      * exists (m, d). cbn [fst]. apply String.eqb_neq in Hne. rewrite Hne. auto.
      * exists (n, d0). cbn [fst]. rewrite String.eqb_refl. auto.
  - assert (Hnot : ~ In n (names df)).
    { intros H. apply existsb_names in H. congruence. }
    rewrite in_app_iff. cbn [In]. split.
    + intros [Hin|[Heq|[]]].
      * left. split; [|exact Hin]. intros ->. apply Hnot, names_In. eauto.
      * injection Heq as <- <-. right. auto.
    + intros [[_ Hin]|[-> ->]]; auto.
Qed.

Lemma in_dropna (e : DataFrame) (m : string) (d : column) :
  In (m, d) (columns (dropna e)) <->
  exists d0, In (m, d0) (columns e) /\ d = take_rows (retained e) d0.
Proof.
  unfold dropna. cbn [columns]. rewrite in_map_iff. split.
  - intros [[m' d0] [Heq Hin]]. cbn [fst snd] in Heq. injection Heq as <- <-. eauto.
  - intros [d0 [Hin ->]]. exists (m, d0). auto.
Qed.

Lemma in_drop_zero_columns (f : DataFrame) (m : string) (d : column) :
  In (m, d) (columns (drop_zero_columns f)) <->
  In (m, d) (columns f) /\ exists d', In (m, d') (columns f) /\ all_zero d' = false.
Proof.
  unfold drop_zero_columns, getitem_names. cbn [columns].
  rewrite in_flat_map. split.
  - intros [n [Hn Hin]]. apply filter_In in Hin as [Hin Heq]. cbn [fst] in Heq.
    apply String.eqb_eq in Heq. subst n. split; [exact Hin|].
    apply in_map_iff in Hn as [[m' d'] [Hm Hd']]. cbn [fst] in Hm. subst m'.
    apply filter_In in Hd' as [Hd' Hz]. cbn [snd] in Hz.
    exists d'. split; [exact Hd'|]. destruct (all_zero d'); [discriminate|reflexivity].
  - intros [Hin [d' [Hd' Hz]]]. exists m. split.
    + apply in_map_iff. exists (m, d'). split; [reflexivity|].
      apply filter_In. cbn [snd]. rewrite Hz. auto.
    + apply filter_In. cbn [fst]. rewrite String.eqb_refl. auto.
Qed.

Lemma list_remove_Ok (x : string) (l l' : list string) :
  list_remove x l = Ok l' ->
  In x l /\ (forall k, In k l' -> In k l) /\ (forall k, In k l -> k <> x -> In k l') /\
  (NoDup l -> ~ In x l' /\ NoDup l').
Proof.
  revert l'. induction l as [|y l IH]; simpl; intros l' H; [discriminate|].
  destruct (String.eqb_spec y x) as [->|Hne].
  - injection H as <-. split; [auto|]. split; [auto|]. split.
    + intros k [Hk|Hk] Hkx; [congruence|exact Hk].
    + intros Hl. apply NoDup_cons in Hl. rewrite <- list_elem_of_In. exact Hl.
  - destruct (list_remove x l) as [r|e]; simpl in H; [|discriminate].
    injection H as <-. destruct (IH r eq_refl) as (Hx & Hsub & Hsup & Hnd).
    split; [auto|]. split; [|split].
    + intros k [Hk|Hk]; [left; exact Hk | right; auto].
    + intros k [Hk|Hk] Hkx; [left; exact Hk | right; auto].
    + intros Hl. apply NoDup_cons in Hl as [Hy Hl].
      destruct (Hnd Hl) as [Hn Hr]. split.
      * simpl. intros [Heq|Hin]; [congruence|auto].
      * apply NoDup_cons. split; [|exact Hr].
        rewrite list_elem_of_In in *. intros Hin. apply Hy. auto.
Qed.

Lemma list_remove_absent (x : string) (l : list string) :
  ~ In x l -> list_remove x l = Raise ValueError.
Proof.
  induction l as [|y l IH]; simpl; intros H; [reflexivity|].
  destruct (String.eqb_spec y x) as [->|Hne]; [tauto|].
  rewrite IH by tauto. reflexivity.
Qed.

(** *** The residualizer's frames *)

Lemma filter_none {A} (f : A -> bool) (l : list A) :
  (forall x, In x l -> f x = false) -> List.filter f l = [].
Proof.
  induction l as [|x l IH]; simpl; intros H; [reflexivity|].
  rewrite (H x) by auto. apply IH. auto.
Qed.

Lemma setitem_same_length (df : DataFrame) (n : string) (c : column) :
  column_length c = nrows df -> setitem df n c = Ok (assign df n c).
Proof.
  intros H. unfold setitem. rewrite H.
  destruct (nrows df) eqn:E; cbn [Nat.eqb negb andb].
  - rewrite E. reflexivity.
  - rewrite E, Nat.eqb_refl. reflexivity.
Qed.

Lemma order_column_length (n : nat) : column_length (order_column n) = n.
Proof. unfold order_column. simpl. rewrite length_map, length_seq. reflexivity. Qed.

Lemma no_rows_no_names (e : DataFrame) :
  retained e = [] -> names (drop_zero_columns (dropna e)) = [].
Proof.
  intros Hr. unfold drop_zero_columns, getitem_names, names at 1. cbn [columns].
  rewrite filter_none; [reflexivity|].
  intros [m d] Hin. apply in_dropna in Hin as [d0 [_ ->]]. cbn [snd].
  rewrite Hr. destruct d0; reflexivity.
Qed.

Lemma reindexed_frame_has_no_rows (df : DataFrame) (n : nat) (pheno : list float) :
  In "order"%string (names df) ->
  length pheno = n ->
  retained (assign (reindex_empty n df) "pheno" (FloatCol pheno)) = [].
Proof.
  intros Ho Hn. unfold retained. apply filter_none. intros i Hi.
  apply in_seq in Hi. cbn [nrows assign reindex_empty] in Hi.
  apply negb_false_iff, existsb_exists.
  exists ("order"%string, FloatCol (replicate n F64.nan)). split.
  - apply in_assign. left. split; [discriminate|].
    apply names_In in Ho as [d Hd]. cbn [reindex_empty columns].
    apply in_map_iff. exists ("order"%string, d). auto.
  - cbn [snd isna_at]. rewrite lookup_replicate_2 by lia. reflexivity.
Qed.

Lemma order_in_names_assign (df : DataFrame) (c : column) :
  In "order"%string (names (assign df "order" c)).
Proof. apply names_In. exists c. apply in_assign. right. auto. Qed.

(** What a successful run of lines 187 to 196 has computed. *)
Lemma get_residual_frames_Ok (pheno : list float) (cov e e_ : DataFrame) (keys : list string) :
  _get_residual_frames pheno cov = Ok (e, e_, keys) ->
  nrows cov = length pheno /\
  e = working_frame pheno cov /\
  e_ = drop_zero_columns (dropna e) /\
  exists keys1,
    list_remove "pheno" (names e_) = Ok keys1 /\ list_remove "order" keys1 = Ok keys.
Proof.
  unfold _get_residual_frames.
  rewrite (setitem_same_length cov "order") by apply order_column_length.
  cbn [mbind result_bind]. fold (order_column (nrows cov)).
  set (e1 := assign cov "order" (order_column (nrows cov))).
  unfold setitem. cbn [column_length].
  destruct (Nat.eqb (nrows e1) 0 && negb (Nat.eqb (length pheno) 0)) eqn:Hre.
  - cbn [nrows reindex_empty]. rewrite Nat.eqb_refl. cbn [mbind result_bind].
    rewrite no_rows_no_names.
    + cbn [list_remove mbind result_bind]. discriminate.
    + apply reindexed_frame_has_no_rows; [apply order_in_names_assign | reflexivity].
  - destruct (Nat.eqb (length pheno) (nrows e1)) eqn:Hlen; [|discriminate].
    apply Nat.eqb_eq in Hlen. cbn [mbind result_bind].
    destruct (list_remove "pheno" _) as [keys1|err] eqn:H1; [|discriminate].
    cbn [mbind result_bind].
    destruct (list_remove "order" keys1) as [keys2|err] eqn:H2; [|discriminate].
    cbn [mbind result_bind]. intros [= <- <- <-].
    split; [symmetry; exact Hlen|]. split; [reflexivity|]. split; [reflexivity|].
    exists keys1. auto.
Qed.

Lemma list_remove_Raise (x : string) (l : list string) (err : exn) :
  list_remove x l = Raise err -> err = ValueError.
Proof.
  revert err. induction l as [|y l IH]; simpl; intros err; [congruence|].
  destruct (String.eqb y x); [discriminate|].
  destruct (list_remove x l) as [r|e'] eqn:Hr; simpl; [discriminate|].
  intros [= <-]. eauto.
Qed.

Lemma setitem_Raise (df : DataFrame) (n : string) (c : column) (err : exn) :
  setitem df n c = Raise err -> err = ValueError.
Proof. unfold setitem. destruct (Nat.eqb _ _); [discriminate | congruence]. Qed.

(** Every failure of these lines is a [ValueError]. *)
Lemma get_residual_frames_Raise (pheno : list float) (cov : DataFrame) (err : exn) :
  _get_residual_frames pheno cov = Raise err -> err = ValueError.
Proof.
  unfold _get_residual_frames.
  rewrite (setitem_same_length cov "order") by apply order_column_length.
  cbn [mbind result_bind].
  destruct (setitem _ "pheno" _) as [e|err1] eqn:Hs; cbn [mbind result_bind].
  - destruct (list_remove "pheno" _) as [keys1|err1] eqn:H1; cbn [mbind result_bind].
    + destruct (list_remove "order" keys1) as [keys2|err2] eqn:H2;
        cbn [mbind result_bind]; [discriminate|].
      intros [= <-]. exact (list_remove_Raise _ _ _ H2).
    + intros [= <-]. exact (list_remove_Raise _ _ _ H1).
  - intros [= <-]. exact (setitem_Raise _ _ _ _ Hs).
Qed.

Lemma in_working_frame (pheno : list float) (cov : DataFrame) (m : string) (d : column) :
  In (m, d) (columns (working_frame pheno cov)) <->
  (working_name m = false /\ In (m, d) (columns cov)) \/
  (m = "order"%string /\ d = order_column (nrows cov)) \/
  (m = "pheno"%string /\ d = FloatCol pheno).
Proof.
  unfold working_frame, working_name. rewrite !in_assign.
  destruct (String.eqb_spec m "order") as [Ho|Ho];
    destruct (String.eqb_spec m "pheno") as [Hp|Hp]; cbn [orb];
    intuition congruence.
Qed.

Lemma row_complete_working_frame (pheno : list float) (cov : DataFrame) (i : nat) :
  negb (existsb (fun nc => isna_at (snd nc) i) (columns (working_frame pheno cov))) =
  row_complete pheno cov i.
Proof.
  unfold row_complete. apply eq_true_iff_eq.
  rewrite negb_true_iff, andb_true_iff, negb_true_iff, forallb_forall. split.
  - intros Hex. split.
    + destruct (isna_at (FloatCol pheno) i) eqn:Hna; [|reflexivity].
      exfalso. refine (eq_true_false_abs _ _ Hex).
      apply existsb_exists.
      exists ("pheno"%string, FloatCol pheno). split; [|exact Hna].
      apply in_working_frame. auto.
    + intros [m d] Hin. cbn [fst snd].
      destruct (working_name m) eqn:Hw; [reflexivity|].
      destruct (isna_at d i) eqn:Hna; [|reflexivity].
      exfalso. refine (eq_true_false_abs _ _ Hex).
      apply existsb_exists.
      exists (m, d). split; [|exact Hna]. apply in_working_frame. auto.
  - intros [Hp Hall]. apply not_true_is_false. intros Hex.
    apply existsb_exists in Hex as [[m d] [Hin Hna]]. cbn [snd] in Hna.
    apply in_working_frame in Hin as [[Hw Hin]|[[-> ->]|[-> ->]]].
    + specialize (Hall _ Hin). cbn [fst snd] in Hall.
      rewrite Hw, Hna in Hall. discriminate.
    + discriminate.
    + congruence.
Qed.

(** The rows [dropna] keeps are the rows without a missing value in the
    phenotype or in a covariate. *)
Lemma retained_working_frame (pheno : list float) (cov : DataFrame) :
  nrows cov = length pheno ->
  retained (working_frame pheno cov) = complete_rows pheno cov.
Proof.
  intros Hn. unfold retained, complete_rows.
  replace (nrows (working_frame pheno cov)) with (length pheno)
    by (symmetry; exact Hn).
  apply filter_ext. intros i. apply row_complete_working_frame.
Qed.

Lemma all_zero_take_pheno (pheno : list float) (idx : list nat) :
  all_zero (take_rows idx (FloatCol pheno)) =
  forallb (fun i => F64.eqb (nth i pheno F64.nan) F64.zero) idx.
Proof.
  cbn [take_rows all_zero]. induction idx as [|i idx IH]; [reflexivity|].
  cbn [map forallb]. rewrite IH. reflexivity.
Qed.

(** The column [pheno] of the cleaned frame, when it is still there. *)
Lemma pheno_column_of_cleaned (pheno : list float) (cov : DataFrame) (d : column) :
  In ("pheno"%string, d) (columns (dropna (working_frame pheno cov))) ->
  d = take_rows (retained (working_frame pheno cov)) (FloatCol pheno).
Proof.
  intros Hin. apply in_dropna in Hin as [d0 [Hin ->]]. f_equal.
  apply in_working_frame in Hin as [[Hw _]|[[Hne _]|[_ ->]]];
    [discriminate | discriminate | reflexivity].
Qed.

Section Residualizer.

Variable OLS_fittedvalues : list float -> list (string * list float) -> result (list float).

(** C10.  When the phenotype is zero, of either sign, on every row that has
    no missing value, the residualizer returns no residuals: the column
    [pheno] goes with the all-zero columns, and [keys.remove("pheno")]
    raises [ValueError]. *)
Theorem zero_phenotype_fails (pheno : list float) (cov : DataFrame) :
  forallb (fun i => F64.eqb (nth i pheno F64.nan) F64.zero) (complete_rows pheno cov) = true ->
  _get_residual_frames pheno cov = Raise ValueError /\
  _get_residual OLS_fittedvalues pheno cov = Raise ValueError.
Proof.
  intros Hz.
  assert (Hf : _get_residual_frames pheno cov = Raise ValueError).
  { destruct (_get_residual_frames pheno cov) as [[[e e_] keys]|err] eqn:H.
    - exfalso. apply get_residual_frames_Ok in H as (Hn & -> & -> & keys1 & H1 & _).
      apply list_remove_Ok in H1 as [Hin _].
      apply names_In in Hin as [d Hd].
      apply in_drop_zero_columns in Hd as [_ [d' [Hd' Hnz]]].
      apply pheno_column_of_cleaned in Hd'. subst d'.
      rewrite retained_working_frame, all_zero_take_pheno in Hnz by exact Hn.
      congruence.
    - f_equal. exact (get_residual_frames_Raise _ _ _ H). }
  split; [exact Hf|]. unfold _get_residual. rewrite Hf. reflexivity.
Qed.

(** Frames with distinct column names *)

Lemma unique_column {A} (l : list (string * A)) (n : string) (a b : A) :
  NoDup (map fst l) -> In (n, a) l -> In (n, b) l -> a = b.
Proof.
  induction l as [|[m d] l IH]; cbn [map fst]; intros Hnd Ha Hb; [destruct Ha|].
  apply NoDup_cons in Hnd as [Hm Hnd]. rewrite list_elem_of_In in Hm.
  destruct Ha as [Ha|Ha], Hb as [Hb|Hb].
  - congruence.
  - injection Ha as <- <-. exfalso. apply Hm, in_map_iff. exists (m, b). auto.
  - injection Hb as <- <-. exfalso. apply Hm, in_map_iff. exists (m, a). auto.
  - auto.
Qed.

Lemma filter_by_name {A} (l : list (string * A)) (n : string) (a : A) :
  NoDup (map fst l) -> In (n, a) l ->
  List.filter (fun nc => String.eqb (fst nc) n) l = [(n, a)].
Proof.
  induction l as [|[m d] l IH]; cbn [map fst]; intros Hnd Ha; [destruct Ha|].
  apply NoDup_cons in Hnd as [Hm Hnd]. rewrite list_elem_of_In in Hm.
  cbn [List.filter fst]. destruct Ha as [Ha|Ha].
  - injection Ha as -> ->. rewrite String.eqb_refl. f_equal.
    apply filter_none. intros [m' d'] Hin. cbn [fst]. apply String.eqb_neq.
    intros ->. apply Hm, in_map_iff. exists (n, d'). auto.
  - destruct (String.eqb_spec m n) as [->|Hne]; [|auto].
    exfalso. apply Hm, in_map_iff. exists (n, a). auto.
Qed.

Lemma flat_map_by_name {A} (l l' : list (string * A)) :
  NoDup (map fst l) -> (forall x, In x l' -> In x l) ->
  flat_map (fun n => List.filter (fun nc => String.eqb (fst nc) n) l) (map fst l') = l'.
Proof.
  intros Hnd. induction l' as [|[n a] l' IH]; intros Hsub; [reflexivity|].
  cbn [map fst flat_map]. rewrite (filter_by_name l n a Hnd) by (apply Hsub; left; reflexivity).
  cbn [app]. f_equal. apply IH. intros x Hx. apply Hsub. right. exact Hx.
Qed.

Lemma drop_zero_columns_distinct (f : DataFrame) :
  NoDup (names f) ->
  columns (drop_zero_columns f) =
  List.filter (fun nc => negb (all_zero (snd nc))) (columns f).
Proof.
  intros Hnd. unfold drop_zero_columns, getitem_names. cbn [columns].
  apply flat_map_by_name; [exact Hnd|]. intros x Hx. apply filter_In in Hx. tauto.
Qed.

Lemma NoDup_names_filter {A} (P : string * A -> bool) (l : list (string * A)) :
  NoDup (map fst l) -> NoDup (map fst (List.filter P l)).
Proof.
  induction l as [|x l IH]; cbn [map List.filter]; intros Hnd; [exact Hnd|].
  apply NoDup_cons in Hnd as [Hx Hnd]. destruct (P x); [|auto].
  cbn [map]. apply NoDup_cons. split; [|auto].
  rewrite list_elem_of_In in *. intros Hin. apply Hx.
  apply in_map_iff in Hin as [y [Hy Hin]]. apply filter_In in Hin as [Hin _].
  apply in_map_iff. eauto.
Qed.

Lemma names_dropna (e : DataFrame) : names (dropna e) = names e.
Proof. unfold names, dropna. cbn [columns]. rewrite map_map. reflexivity. Qed.

Lemma NoDup_names_assign (df : DataFrame) (n : string) (c : column) :
  NoDup (names df) -> NoDup (names (assign df n c)).
Proof.
  intros Hnd. unfold names, assign. cbn [columns].
  destruct (existsb (String.eqb n) (names df)) eqn:Hex.
  - rewrite map_map.
    erewrite map_ext; [exact Hnd|]. intros [m d]. cbn [fst].
    destruct (String.eqb m n); reflexivity.
  - rewrite map_app. cbn [map fst]. apply NoDup_app. split; [exact Hnd|]. split.
    + intros x Hx Hn. apply list_elem_of_singleton in Hn. subst x.
      apply list_elem_of_In, existsb_names in Hx. congruence.
    + apply NoDup_singleton.
Qed.

Lemma NoDup_names_cleaned (pheno : list float) (cov : DataFrame) :
  NoDup (names cov) ->
  NoDup (names (dropna (working_frame pheno cov))) /\
  NoDup (names (drop_zero_columns (dropna (working_frame pheno cov)))).
Proof.
  intros Hnd.
  assert (H1 : NoDup (names (dropna (working_frame pheno cov)))).
  { rewrite names_dropna. unfold working_frame. auto using NoDup_names_assign. }
  split; [exact H1|]. unfold names at 1. rewrite drop_zero_columns_distinct by exact H1.
  apply NoDup_names_filter. exact H1.
Qed.

Lemma design_Ok (e_ : DataFrame) (keys : list string) :
  (forall k, In k keys -> In k (names e_)) ->
  exists X,
    design e_ keys = Ok X /\ map fst X = keys /\
    forall k xs, In (k, xs) X ->
      exists c, In (k, c) (columns e_) /\ xs = values c.
Proof.
  induction keys as [|k keys IH]; intros Hall.
  - exists []. repeat split. intros k xs [].
  - destruct (assoc_in_names k (columns e_) (Hall k (or_introl eq_refl))) as [c Hc].
    destruct IH as (X & HX & Hfst & Hin); [intros; apply Hall; right; assumption|].
    exists ((k, values c) :: X). cbn [design]. rewrite Hc, HX. cbn [mbind result_bind].
    split; [reflexivity|]. split; [cbn [map fst]; f_equal; exact Hfst|].
    intros k' xs [Heq|Hk'].
    + injection Heq as <- <-. exists c. split; [apply assoc_In, Hc | reflexivity].
    + auto.
Qed.

Lemma working_name_false (n : string) :
  working_name n = false <-> n <> "order"%string /\ n <> "pheno"%string.
Proof.
  unfold working_name. rewrite orb_false_iff, !String.eqb_neq. reflexivity.
Qed.

(** The columns of the cleaned frame that come from the covariates. *)
Lemma covariate_column_of_cleaned (pheno : list float) (cov : DataFrame)
    (k : string) (d : column) :
  NoDup (names cov) ->
  nrows cov = length pheno ->
  working_name k = false ->
  In (k, d) (columns (drop_zero_columns (dropna (working_frame pheno cov)))) <->
  exists c, In (k, c) (columns cov) /\
            d = take_rows (complete_rows pheno cov) c /\
            all_zero (take_rows (complete_rows pheno cov) c) = false.
Proof.
  intros Hnd Hn Hw. rewrite in_drop_zero_columns.
  rewrite <- (retained_working_frame pheno cov Hn). split.
  - intros [Hd [d' [Hd' Hnz]]].
    assert (d' = d) as ->
      by exact (unique_column _ _ _ _ (proj1 (NoDup_names_cleaned pheno cov Hnd)) Hd' Hd).
    apply in_dropna in Hd as [c [Hc ->]].
    apply in_working_frame in Hc as [[_ Hc]|[[-> _]|[-> _]]]; try discriminate.
    exists c. auto.
  - intros [c [Hc [-> Hnz]]].
    assert (Hin : In (k, take_rows (retained (working_frame pheno cov)) c)
                     (columns (dropna (working_frame pheno cov)))).
    { apply in_dropna. exists c. split; [|reflexivity]. apply in_working_frame. auto. }
    split; [exact Hin|]. eauto.
Qed.

(** C6.  For a covariate frame with distinct column names, a covariate
    column that is zero on every retained row is not among the predictor
    names, every other covariate column is, and each predictor column handed
    to the fit is such a covariate column, restricted to the retained rows
    and not all zero there. *)
Theorem zero_columns_left_out_of_design
    (pheno : list float) (cov e e_ : DataFrame) (keys : list string) :
  NoDup (names cov) ->
  _get_residual_frames pheno cov = Ok (e, e_, keys) ->
  let kept := complete_rows pheno cov in
  (forall n c, In (n, c) (columns cov) -> all_zero (take_rows kept c) = true -> ~ In n keys) /\
  (forall n c, In (n, c) (columns cov) -> working_name n = false ->
               all_zero (take_rows kept c) = false -> In n keys) /\
  exists X,
    design e_ keys = Ok X /\ map fst X = keys /\
    forall k xs, In (k, xs) X ->
      exists c, In (k, c) (columns cov) /\ working_name k = false /\
                xs = values (take_rows kept c) /\ all_zero (take_rows kept c) = false.
Proof.
  intros Hnd H kept.
  apply get_residual_frames_Ok in H as (Hn & -> & -> & keys1 & H1 & H2).
  destruct (NoDup_names_cleaned pheno cov Hnd) as [_ Hnd_].
  apply list_remove_Ok in H1 as (_ & Hsub1 & Hsup1 & Hnd1).
  destruct (Hnd1 Hnd_) as [Hp1 Hndk1].
  apply list_remove_Ok in H2 as (_ & Hsub2 & Hsup2 & Hnd2).
  destruct (Hnd2 Hndk1) as [Ho2 _].
  assert (Hkeys : forall k, In k keys ->
            working_name k = false /\
            In k (names (drop_zero_columns (dropna (working_frame pheno cov))))).
  { intros k Hk. split; [|auto]. apply working_name_false. split.
    - intros ->. exact (Ho2 Hk).
    - intros ->. exact (Hp1 (Hsub2 _ Hk)). }
  split; [|split].
  - intros n c Hc Hz Hk. destruct (Hkeys n Hk) as [Hw Hin].
    apply names_In in Hin as [d Hd].
    apply (covariate_column_of_cleaned pheno cov n d Hnd Hn Hw) in Hd
      as [c' [Hc' [_ Hnz]]].
    assert (c' = c) as -> by exact (unique_column _ _ _ _ Hnd Hc' Hc).
    fold kept in Hnz. congruence.
  - intros n c Hc Hw Hnz. apply working_name_false in Hw as Hne. destruct Hne as [Hno Hnp].
    apply Hsup2; [|exact Hno]. apply Hsup1; [|exact Hnp].
    apply names_In. exists (take_rows kept c).
    apply (covariate_column_of_cleaned pheno cov n _ Hnd Hn Hw). exists c. auto.
  - destruct (design_Ok (drop_zero_columns (dropna (working_frame pheno cov))) keys)
      as (X & HX & Hfst & HinX); [intros k Hk; apply (Hkeys k Hk)|].
    exists X. split; [exact HX|]. split; [exact Hfst|].
    intros k xs Hk. destruct (HinX k xs Hk) as [d [Hd ->]].
    assert (Hkk : In k keys).
    { rewrite <- Hfst. apply in_map_iff. exists (k, values d). auto. }
    destruct (Hkeys k Hkk) as [Hw _].
    apply (covariate_column_of_cleaned pheno cov k d Hnd Hn Hw) in Hd
      as [c [Hc [-> Hnz]]].
    exists c. auto.
Qed.

(** The left merge on [order] *)

Lemma filter_zip_absent (kept : list nat) (rs : list float) (i : nat) :
  ~ In i kept ->
  List.filter (fun kv => Z.eqb (fst kv) (Z.of_nat i)) (zip (map Z.of_nat kept) rs) = [].
Proof.
  intros Hout. apply filter_none. intros [z v] Hin. cbn [fst].
  apply Z.eqb_neq. intros ->. apply Hout.
  apply list_elem_of_In, elem_of_zip_l in Hin. cbn [fst] in Hin.
  apply list_elem_of_fmap in Hin as [j [Hj Hin]].
  apply Nat2Z.inj in Hj. subst j. apply list_elem_of_In. exact Hin.
Qed.

Lemma filter_zip_present (kept : list nat) (rs : list float) (i k : nat) (v : float) :
  NoDup kept -> kept !! k = Some i -> rs !! k = Some v ->
  List.filter (fun kv => Z.eqb (fst kv) (Z.of_nat i)) (zip (map Z.of_nat kept) rs) =
  [(Z.of_nat i, v)].
Proof.
  revert rs k. induction kept as [|j kept IH]; intros rs k Hnd Hk Hv; [discriminate|].
  apply NoDup_cons in Hnd as [Hj Hnd]. rewrite list_elem_of_In in Hj.
  destruct rs as [|w rs]; [destruct k; discriminate|].
  cbn [map zip zip_with List.filter fst]. destruct k as [|k].
  - injection Hk as ->. injection Hv as ->. rewrite Z.eqb_refl. f_equal.
    apply filter_zip_absent. exact Hj.
  - cbn [lookup list_lookup] in Hk, Hv.
    destruct (Z.eqb_spec (Z.of_nat j) (Z.of_nat i)) as [Heq|Hne].
    + apply Nat2Z.inj in Heq. subst j. exfalso. apply Hj.
      apply list_elem_of_In. eapply list_elem_of_lookup_2. exact Hk.
    + eapply IH; eassumption.
Qed.

Lemma flat_map_singletons {A B C} (f : A -> B) (g : B -> list C) (h : A -> C)
    (l : list A) :
  (forall x, g (f x) = [h x]) -> flat_map g (map f l) = map h l.
Proof.
  intros H. induction l as [|x l IH]; [reflexivity|].
  cbn [map flat_map]. rewrite H, IH. reflexivity.
Qed.

Lemma merge_left_range (n : nat) (kept : list nat) (rs : list float) :
  NoDup kept -> length rs = length kept ->
  let out := merge_left (map Z.of_nat (seq 0 n)) (zip (map Z.of_nat kept) rs) in
  length out = n /\
  (forall i, (i < n)%nat -> ~ In i kept -> out !! i = Some F64.nan) /\
  (forall i k v, (i < n)%nat -> kept !! k = Some i -> rs !! k = Some v -> out !! i = Some v).
Proof.
  intros Hnd Hlen out.
  set (h := fun i : nat =>
              match List.filter (fun kv => Z.eqb (fst kv) (Z.of_nat i))
                                (zip (map Z.of_nat kept) rs) with
              | [] => F64.nan
              | kv :: _ => snd kv
              end).
  assert (Hout : out = map h (seq 0 n)).
  { unfold out, merge_left. apply flat_map_singletons. intros i. unfold h.
    destruct (in_dec Nat.eq_dec i kept) as [Hin|Hnin].
    - apply list_elem_of_In, list_elem_of_lookup in Hin as [k Hk].
      destruct (rs !! k) as [v|] eqn:Hv.
      + rewrite (filter_zip_present kept rs i k v Hnd Hk Hv). reflexivity.
      + apply lookup_lt_Some in Hk. apply lookup_ge_None in Hv. lia.
    - rewrite (filter_zip_absent kept rs i Hnin). reflexivity. }
  rewrite Hout. split; [rewrite length_map, length_seq; reflexivity|].
  split.
  - intros i Hi Hnin. rewrite list_lookup_fmap, lookup_seq_lt by exact Hi.
    cbn [fmap option_fmap option_map Nat.add]. unfold h.
    rewrite (filter_zip_absent kept rs i Hnin). reflexivity.
  - intros i k v Hi Hk Hv. rewrite list_lookup_fmap, lookup_seq_lt by exact Hi.
    cbn [fmap option_fmap option_map Nat.add]. unfold h.
    rewrite (filter_zip_present kept rs i k v Hnd Hk Hv). reflexivity.
Qed.

Lemma complete_rows_In (pheno : list float) (cov : DataFrame) (i : nat) :
  In i (complete_rows pheno cov) <->
  (i < length pheno)%nat /\ row_complete pheno cov i = true.
Proof.
  unfold complete_rows. rewrite filter_In, in_seq. intuition lia.
Qed.

Lemma complete_rows_NoDup (pheno : list float) (cov : DataFrame) :
  NoDup (complete_rows pheno cov).
Proof.
  unfold complete_rows. apply NoDup_ListNoDup, List.NoDup_filter, NoDup_ListNoDup, NoDup_seq.
Qed.

Lemma take_order_column (n : nat) (idx : list nat) :
  (forall i, In i idx -> (i < n)%nat) ->
  take_rows idx (order_column n) = IntCol (map Z.of_nat idx).
Proof.
  intros Hlt. unfold order_column. cbn [take_rows]. f_equal.
  apply map_ext_in. intros i Hi.
  change 0 with (Z.of_nat 0). rewrite map_nth, seq_nth by auto. reflexivity.
Qed.

Lemma resid_Ok (y fitted r : list float) :
  resid y fitted = Ok r ->
  length fitted = length y /\ r = zip_with F64.sub y fitted.
Proof.
  unfold resid. destruct (Nat.eqb (length fitted) (length y)) eqn:E; [|discriminate].
  apply Nat.eqb_eq in E. intros [= <-]. auto.
Qed.

(** C3.  When the residualizer returns, its output has the length and the
    row order of the phenotype; a row with a missing value in the phenotype
    or in a covariate holds NaN; and the retained rows, taken in order, hold
    the phenotype minus the value the fit returned for them, the fit being
    run on the retained phenotype and the predictor columns of the cleaned
    frame.  The fit itself is the library's. *)
Theorem residuals_aligned_with_phenotype
    (pheno : list float) (cov cov' : DataFrame) (r : list float) :
  _get_residual OLS_fittedvalues pheno cov = Ok (r, cov') ->
  let kept := complete_rows pheno cov in
  length r = length pheno /\
  (forall i, (i < length pheno)%nat -> row_complete pheno cov i = false ->
             r !! i = Some F64.nan) /\
  exists e e_ keys X fitted,
    _get_residual_frames pheno cov = Ok (e, e_, keys) /\
    design e_ keys = Ok X /\
    OLS_fittedvalues (map (fun i => nth i pheno F64.nan) kept) X = Ok fitted /\
    length fitted = length kept /\
    forall k i, kept !! k = Some i ->
      r !! i = Some (F64.sub (nth i pheno F64.nan) (nth k fitted F64.nan)).
Proof.
  intros H kept. unfold _get_residual in H.
  destruct (_get_residual_frames pheno cov) as [[[e e_] keys]|err] eqn:Hf;
    cbn [mbind result_bind] in H; [|discriminate].
  apply get_residual_frames_Ok in Hf as (Hn & -> & -> & keys1 & H1 & H2).
  set (wf := working_frame pheno cov) in *.
  set (e_ := drop_zero_columns (dropna wf)) in *.
  destruct (assoc "pheno" (columns e_)) as [y|] eqn:Hy; [|discriminate].
  apply assoc_In, in_drop_zero_columns in Hy as [Hy _].
  apply pheno_column_of_cleaned in Hy.
  rewrite (retained_working_frame pheno cov Hn) in Hy. fold kept in Hy. subst y.
  cbn [values take_rows] in H.
  destruct (design e_ keys) as [X|err] eqn:HX; cbn [mbind result_bind] in H; [|discriminate].
  destruct (OLS_fittedvalues _ X) as [fitted|err] eqn:Hfit;
    cbn [mbind result_bind] in H; [|discriminate].
  destruct (resid _ fitted) as [r0|err] eqn:Hres;
    cbn [mbind result_bind] in H; [|discriminate].
  apply resid_Ok in Hres as [Hlen Hr0]. rewrite length_map in Hlen.
  assert (Hlen0 : length r0 = length kept).
  { rewrite Hr0, length_zip_with, length_map. lia. }
  assert (Hrows : nrows e_ = length kept).
  { unfold e_, drop_zero_columns, getitem_names, dropna. cbn [nrows].
    unfold wf. rewrite (retained_working_frame pheno cov Hn). reflexivity. }
  rewrite setitem_same_length in H by (cbn [column_length]; lia).
  cbn [mbind result_bind] in H.
  destruct (existsb (String.eqb "residual") (names wf)); [discriminate|].
  destruct (assoc "order" (columns wf)) as [lk|] eqn:Hlk; [|discriminate].
  apply assoc_In, in_working_frame in Hlk as [[Hw _]|[[_ ->]|[Hne _]]];
    [discriminate | | discriminate].
  unfold order_column in H at 1.
  destruct (assoc "order" (columns (assign e_ "residual" (FloatCol r0)))) as [rk|] eqn:Hrk;
    [|discriminate].
  apply assoc_In, in_assign in Hrk as [[_ Hrk]|[Hne _]]; [|discriminate].
  apply in_drop_zero_columns in Hrk as [Hrk _].
  apply in_dropna in Hrk as [d0 [Hd0 ->]].
  apply in_working_frame in Hd0 as [[Hw _]|[[_ ->]|[Hne _]]];
    [discriminate | | discriminate].
  change (retained wf) with (retained (working_frame pheno cov)) in H.
  rewrite (retained_working_frame pheno cov Hn) in H. fold kept in H.
  rewrite Hn in H.
  rewrite take_order_column in H
    by (intros i Hi; apply complete_rows_In in Hi; tauto).
  destruct (assoc "residual" (columns (assign e_ "residual" (FloatCol r0)))) as [rs|] eqn:Hrs;
    [|discriminate].
  apply assoc_In, in_assign in Hrs as [[Hne _]|[_ ->]]; [congruence|].
  injection H as <- <-.
  destruct (merge_left_range (length pheno) kept r0 (complete_rows_NoDup pheno cov) Hlen0)
    as (Hout & Hnan & Hval).
  split; [exact Hout|]. split.
  - intros i Hi Hrow. apply Hnan; [exact Hi|].
    intros Hin. apply complete_rows_In in Hin. destruct Hin as [_ Hin]. congruence.
  - exists wf, e_, keys, X, fitted.
    split; [reflexivity|]. split; [exact HX|].
    split; [exact Hfit|]. split; [exact Hlen|].
    intros k i Hk. assert (Hi : In i kept).
    { apply list_elem_of_In. eapply list_elem_of_lookup_2. exact Hk. }
    apply complete_rows_In in Hi as [Hi _].
    apply (Hval i k); [exact Hi | exact Hk |].
    rewrite Hr0, lookup_zip_with, list_lookup_fmap, Hk. cbn [fmap option_fmap option_map mbind option_bind].
    assert (Hkf : (k < length fitted)%nat).
    { rewrite Hlen. eapply lookup_lt_Some. exact Hk. }
    destruct (lookup_lt_is_Some_2 fitted k Hkf) as [f Hf].
    rewrite Hf. cbn [mbind option_bind]. do 2 f_equal.
    symmetry. apply nth_lookup_Some with (d := F64.nan) in Hf. exact Hf.
Qed.

End Residualizer.

(** *** The text of a number *)

Lemma first_char_app (a b : string) :
  first_char (a +:+ b) =
  match first_char a with Some c => Some c | None => first_char b end.
Proof. destruct a; reflexivity. Qed.

Lemma not_n_app (a b : string) :
  first_char a <> Some "n"%char -> first_char b <> Some "n"%char ->
  first_char (a +:+ b) <> Some "n"%char.
Proof. rewrite first_char_app. destruct (first_char a); auto. Qed.

Lemma digit_char_not_n (d : Z) : 0 <= d < 10 -> PyStr.digit_char d <> "n"%char.
Proof.
  intros H.
  assert (Hd : d = 0 \/ d = 1 \/ d = 2 \/ d = 3 \/ d = 4 \/ d = 5 \/ d = 6 \/
               d = 7 \/ d = 8 \/ d = 9) by lia.
  repeat (destruct Hd as [->|Hd]; [discriminate|]). subst d. discriminate.
Qed.

Lemma digits_rev_range (n : nat) (q : Z) :
  Forall (fun d => 0 <= d < 10) (PyStr.digits_rev n q).
Proof.
  revert q. induction n as [|n IH]; intros q; cbn [PyStr.digits_rev]; constructor.
  - apply Z.mod_pos_bound. lia.
  - apply IH.
Qed.

Lemma drop_zeros_Forall (P : Z -> Prop) (ds : list Z) :
  Forall P ds -> Forall P (PyStr.drop_zeros ds).
Proof.
  induction 1 as [|d ds Hd Hds IH]; [constructor|].
  destruct d; cbn [PyStr.drop_zeros]; auto.
Qed.

Lemma sig_digits_range (q : Z) : Forall (fun d => 0 <= d < 10) (PyStr.sig_digits q).
Proof.
  unfold PyStr.sig_digits. apply Forall_rev, drop_zeros_Forall, digits_rev_range.
Qed.

Lemma string_of_digits_not_n (ds : list Z) :
  Forall (fun d => 0 <= d < 10) ds ->
  first_char (PyStr.string_of_digits ds) <> Some "n"%char.
Proof.
  destruct 1 as [|d ds Hd _]; cbn [PyStr.string_of_digits first_char]; [discriminate|].
  intros [= H]. exact (digit_char_not_n d Hd H).
Qed.

Lemma zeros_not_n (n : nat) : first_char (PyStr.zeros n) <> Some "n"%char.
Proof. destruct n; discriminate. Qed.

Lemma format_g12_not_n (num den : Z) :
  first_char (PyStr.format_g12 num den) <> Some "n"%char.
Proof.
  unfold PyStr.format_g12. destruct (PyStr.digits12 num den) as [q decpt].
  pose proof (sig_digits_range q) as Hds. set (ds := PyStr.sig_digits q) in *.
  assert (Hfirst : forall k, Forall (fun d => 0 <= d < 10) (firstn k ds))
    by (intros k; apply Forall_take, Hds).
  assert (Hskip : forall k, Forall (fun d => 0 <= d < 10) (skipn k ds))
    by (intros k; apply Forall_drop, Hds).
  destruct ((decpt <=? -4) || (11 <? decpt)).
  - apply not_n_app; [apply string_of_digits_not_n, Hfirst|].
    apply not_n_app; [destruct (skipn 1 ds); discriminate | discriminate].
  - destruct (decpt <=? 0); [discriminate|].
    destruct (Z.of_nat (length ds) <=? decpt).
    + apply not_n_app; [apply string_of_digits_not_n, Hds|].
      apply not_n_app; [apply zeros_not_n | discriminate].
    + apply not_n_app; [apply string_of_digits_not_n, Hfirst | discriminate].
Qed.

(** Only NaN is written ['nan']. *)
Lemma str_float_nan (x : float) : PyStr.str_float x = "nan"%string <-> x = F64.nan.
Proof.
  split; [|intros ->; reflexivity].
  destruct x as [[]|[]| |s m e]; try discriminate; [reflexivity|].
  cbn [PyStr.str_float]. intros H. exfalso.
  assert (Hn : first_char (PyStr.str_float (S754_finite s m e)) = Some "n"%char)
    by (cbn [PyStr.str_float]; rewrite H; reflexivity).
  cbn [PyStr.str_float] in Hn. revert Hn. apply not_n_app.
  - destruct s; discriminate.
  - destruct (0 <=? e); apply format_g12_not_n.
Qed.

(** *** Phenotype preparation and scoped entry *)

Section Entry.

Variables MTPMode_K_LINEAR MTPMode_K_LOGISTIC : string.
Variable OLS_fittedvalues : list float -> list (string * list float) -> result (list float).

Local Abbreviation prepare :=
  (_prepare_phenotype MTPMode_K_LINEAR MTPMode_K_LOGISTIC OLS_fittedvalues).
Local Abbreviation get_residual := (_get_residual OLS_fittedvalues).

(** What a successful preparation has done. *)
Lemma prepare_phenotype_Ok (fs : Files) (context c : Context.t) :
  prepare fs context = Ok c ->
  let args := Context.args context in
  exists p,
    _pheno_from_file_and_column fs (Args.input_phenos_file args)
                                   (Args.input_phenos_column args) = Ok p /\
    (Args.mode args = MTPMode_K_LOGISTIC -> pheno_strings p = binomial_strings) /\
    ((truthy_str (Args.covariates_file args) && truthy_list (Args.covariates args) = true /\
      exists cov r cov',
        _get_covariates fs args = Ok cov /\
        get_residual p cov = Ok (r, cov') /\
        c = set_pheno r (set_covariates cov' (set_covariates cov
              (set_mode MTPMode_K_LINEAR (set_mode (Args.mode args) (set_pheno p context)))))) \/
     (truthy_str (Args.covariates_file args) && truthy_list (Args.covariates args) = false /\
      c = set_mode (Args.mode args) (set_pheno p context))).
Proof.
  intros H args. unfold _prepare_phenotype in H. fold args in H.
  destruct (_pheno_from_file_and_column fs _ _) as [p|err] eqn:Hp;
    cbn [mbind result_bind] in H; [|discriminate].
  exists p. split; [reflexivity|].
  destruct (String.eqb_spec (Args.mode args) MTPMode_K_LOGISTIC) as [Hm|Hm].
  - destruct (bool_decide (pheno_strings p ≠ binomial_strings)) eqn:Hb;
      cbn [mbind result_bind] in H; [discriminate|].
    apply bool_decide_eq_false in Hb. apply dec_stable in Hb.
    split; [intros _; exact Hb|].
    destruct (truthy_str _ && truthy_list _); [left | right; split; congruence].
    split; [reflexivity|].
    destruct (_get_covariates fs args) as [cov|err] eqn:Hc;
      cbn [mbind result_bind] in H; [|discriminate].
    destruct (_get_residual OLS_fittedvalues p cov) as [[r cov']|err] eqn:Hr;
      cbn [mbind result_bind] in H; [|discriminate].
    exists cov, r, cov'. repeat split; [exact Hr | congruence].
  - cbn [mbind result_bind] in H. split; [intros Hm'; contradiction|].
    destruct (truthy_str _ && truthy_list _); [left | right; split; congruence].
    split; [reflexivity|].
    destruct (_get_covariates fs args) as [cov|err] eqn:Hc;
      cbn [mbind result_bind] in H; [|discriminate].
    destruct (_get_residual OLS_fittedvalues p cov) as [[r cov']|err] eqn:Hr;
      cbn [mbind result_bind] in H; [|discriminate].
    exists cov, r, cov'. repeat split; [exact Hr | congruence].
Qed.

(** The logistic check as the code makes it: a phenotype whose texts are not
    exactly the three is refused, whatever the covariate options are. *)
Lemma prepare_phenotype_not_binomial (fs : Files) (context : Context.t) (p : list float) :
  let args := Context.args context in
  Args.mode args = MTPMode_K_LOGISTIC ->
  _pheno_from_file_and_column fs (Args.input_phenos_file args)
                                 (Args.input_phenos_column args) = Ok p ->
  pheno_strings p <> binomial_strings ->
  prepare fs context = Raise not_binomial.
Proof.
  intros args Hm Hp Hne. unfold _prepare_phenotype. fold args.
  rewrite Hp. cbn [mbind result_bind].
  rewrite Hm, String.eqb_refl, (bool_decide_eq_true_2 _ Hne). reflexivity.
Qed.

(** Under logistic mode a phenotype is only accepted with a missing value in
    it: the set it is compared with has ['nan'] as an element. *)
Lemma logistic_entry_needs_missing_value (fs : Files) (context c : Context.t) :
  Args.mode (Context.args context) = MTPMode_K_LOGISTIC ->
  prepare fs context = Ok c ->
  exists p,
    _pheno_from_file_and_column fs (Args.input_phenos_file (Context.args context))
                                   (Args.input_phenos_column (Context.args context)) = Ok p /\
    In F64.nan p.
Proof.
  intros Hm H. apply prepare_phenotype_Ok in H as (p & Hp & Hb & _).
  exists p. split; [exact Hp|]. specialize (Hb Hm).
  assert (Hnan : "nan"%string ∈ pheno_strings p).
  { rewrite Hb. unfold binomial_strings. set_solver. }
  unfold pheno_strings in Hnan.
  apply elem_of_list_to_set, list_elem_of_fmap in Hnan as [x [Hx Hin]].
  symmetry in Hx. apply str_float_nan in Hx. subst x. apply list_elem_of_In, Hin.
Qed.

Local Abbreviation enter :=
  (__enter__ MTPMode_K_LINEAR MTPMode_K_LOGISTIC OLS_fittedvalues).

Lemma open_storage_files (path : option string) (w w' : World) (r : result (list string * string)) :
  open_storage path w = (r, w') -> files w' = files w.
Proof.
  unfold open_storage. destruct path as [p|]; [|intros [= _ <-]; reflexivity].
  destruct (expression_store w !! p); intros [= _ <-]; reflexivity.
Qed.

(** Entry fails as soon as the preparation does, whatever the class. *)
Lemma enter_fails_with_preparation (context : Context.t) (w : World) (err : exn) :
  (forall self, Context.args self = Context.args context ->
                prepare (files w) self = Raise err) ->
  is_ok (fst (enter context w)) = false.
Proof.
  intros Hprep. unfold __enter__.
  destruct (Context.class context).
  - unfold MTPContext__enter__, bindM, Expression_enter.
    destruct (Context.expression context) as [x|]; [|reflexivity].
    unfold bindM. destruct (open_storage (manager_folder x) w) as [[gh|e] w'] eqn:Ho;
      [|reflexivity].
    unfold retM, readM. cbn [fst]. apply open_storage_files in Ho. rewrite Ho.
    rewrite Hprep by reflexivity. reflexivity.
  - unfold HDF5PContext__enter__, bindM, HDF5Expression__structure_file.
    destruct (open_storage _ w) as [[gh|e] w'] eqn:Ho; [|reflexivity].
    unfold readM. cbn [fst]. apply open_storage_files in Ho. rewrite Ho.
    rewrite Hprep by reflexivity. reflexivity.
  - unfold PlainTextPContext__enter__, bindM, PlainTextExpression_Expression_init, readM.
    destruct (Args.expression_file (Context.args context)) as [f|]; [|reflexivity].
    destruct (expression_store w !! f); [|reflexivity].
    cbn [fst]. rewrite Hprep by reflexivity. reflexivity.
Qed.

(** C9.  With logistic mode asked together with a covariates file and a
    covariate list, a loaded phenotype that has a value whose text is none of
    ['0.0'], ['1.0'] and ['nan'] makes the preparation raise the
    invalid-arguments error, and so scoped entry fails for every class of
    context: the check runs on the loaded phenotype, before the mode is set
    to linear. *)
Theorem binomial_check_precedes_covariate_override
    (fs : Files) (context : Context.t) (p : list float) (x : float) :
  let args := Context.args context in
  Args.mode args = MTPMode_K_LOGISTIC ->
  truthy_str (Args.covariates_file args) = true ->
  truthy_list (Args.covariates args) = true ->
  _pheno_from_file_and_column fs (Args.input_phenos_file args)
                                 (Args.input_phenos_column args) = Ok p ->
  In x p ->
  PyStr.str_float x ∉ binomial_strings ->
  prepare fs context = Raise not_binomial /\
  forall w, files w = fs -> is_ok (fst (enter context w)) = false.
Proof.
  intros args Hm _ _ Hp Hx Hout.
  assert (Hne : pheno_strings p <> binomial_strings).
  { intros Heq. apply Hout. rewrite <- Heq. unfold pheno_strings.
    apply elem_of_list_to_set, list_elem_of_In, in_map, Hx. }
  split.
  - apply (prepare_phenotype_not_binomial fs context p); assumption.
  - intros w <-. apply (enter_fails_with_preparation context w not_binomial).
    intros self Hargs. apply (prepare_phenotype_not_binomial (files w) self p).
    + rewrite Hargs. exact Hm.
    + rewrite Hargs. exact Hp.
    + exact Hne.
Qed.



(** *** Scoped exit *)

Local Abbreviation run :=
  (with_ MTPMode_K_LINEAR MTPMode_K_LOGISTIC OLS_fittedvalues).

Lemma prepare_keeps_backend (fs : Files) (context c : Context.t) :
  prepare fs context = Ok c ->
  Context.class c = Context.class context /\
  Context.expression c = Context.expression context /\
  Context.h5 c = Context.h5 context.
Proof.
  intros H. apply prepare_phenotype_Ok in H.
  destruct H as (p & _ & _ & [(_ & cov & r & cov' & _ & _ & ->)|(_ & ->)]);
    repeat split.
Qed.

Lemma open_storage_Ok (path : option string) (w w' : World) (gh : list string * string) :
  open_storage path w = (Ok gh, w') ->
  path = Some (snd gh) /\
  trace w' = trace w ++ [Opened (snd gh)] /\
  open_handles w' = snd gh :: open_handles w.
Proof.
  unfold open_storage. destruct path as [p|]; [|discriminate].
  destruct (expression_store w !! p); [|discriminate].
  intros [= <- <-]. repeat split.
Qed.


(** The handle entry opened, and the exit that closes it. *)
Lemma enter_opens_what_exit_closes (context c : Context.t) (w w1 : World) :
  enter context w = (Ok c, w1) ->
  match Context.class context with
  | PlainTextPContext =>
      trace w1 = trace w /\ open_handles w1 = open_handles w /\
      forall w2, __exit__ c w2 = (Ok tt, w2)
  | _ =>
      exists h,
        trace w1 = trace w ++ [Opened h] /\
        open_handles w1 = h :: open_handles w /\
        forall w2, __exit__ c w2 = close_storage h w2
  end.
Proof.
  unfold __enter__, __exit__. intros H.
  destruct (Context.class context) eqn:Hcls.
  - unfold MTPContext__enter__, bindM, Expression_enter in H.
    destruct (Context.expression context) as [x|] eqn:Hx; [|discriminate].
    unfold bindM in H.
    destruct (open_storage (manager_folder x) w) as [[gh|e] w'] eqn:Ho; [|discriminate].
    unfold retM, readM in H. injection H as H <-.
    apply open_storage_Ok in Ho as (Hfolder & Htr & Hop).
    apply prepare_keeps_backend in H as (Hc & He & _).
    exists (snd gh). split; [exact Htr|]. split; [exact Hop|].
    intros w2. rewrite Hc, Hcls. unfold MTPContext__exit__, Expression_exit.
    rewrite He, Hx, Hfolder. reflexivity.
  - unfold HDF5PContext__enter__, bindM, HDF5Expression__structure_file in H.
    destruct (open_storage _ w) as [[gh|e] w'] eqn:Ho; [|discriminate].
    unfold readM in H. injection H as H <-.
    apply open_storage_Ok in Ho as (_ & Htr & Hop).
    apply prepare_keeps_backend in H as (Hc & _ & Hh).
    exists (snd gh). split; [exact Htr|]. split; [exact Hop|].
    intros w2. rewrite Hc. cbn [Context.class set_expression set_h5]. rewrite Hcls.
    unfold HDF5PContext__exit__. rewrite Hh. reflexivity.
  - unfold PlainTextPContext__enter__, bindM, PlainTextExpression_Expression_init, readM in H.
    destruct (Args.expression_file (Context.args context)) as [f|]; [|discriminate].
    destruct (expression_store w !! f); [|discriminate].
    injection H as H <-. apply prepare_keeps_backend in H as (Hc & _ & _).
    repeat split. intros w2. rewrite Hc. cbn [Context.class set_expression]. rewrite Hcls.
    reflexivity.
Qed.


End Entry.

(** ** The properties on the sample inputs *)



Lemma backend_selection_by_entry_point_witness :
  Args.mode both_files_args ∈ sample_modes /\
  truthy_str (Args.hdf5_expression_file both_files_args) = true /\
  p_context_from_args sample_modes both_files_args =
    Ok (PContext_init HDF5PContext both_files_args).
Proof.
  assert (Hm : Args.mode both_files_args ∈ sample_modes) by (left; reflexivity).
  assert (Hf : truthy_str (Args.hdf5_expression_file both_files_args) = true)
    by reflexivity.
  destruct (backend_selection_by_entry_point sample_modes both_files_args)
    as (_ & _ & _ & _ & H & _).
  exact (conj Hm (conj Hf (H Hm Hf))).
Defined.

Lemma zero_phenotype_fails_witness :
  forallb (fun i => F64.eqb (nth i zero_pheno F64.nan) F64.zero)
          (complete_rows zero_pheno sample_covariates) = true /\
  _get_residual simple_ols zero_pheno sample_covariates = Raise ValueError.
Proof.
  assert (H : forallb (fun i => F64.eqb (nth i zero_pheno F64.nan) F64.zero)
                      (complete_rows zero_pheno sample_covariates) = true)
    by (vm_compute; reflexivity).
  exact (conj H (proj2 (zero_phenotype_fails simple_ols zero_pheno sample_covariates H))).
Defined.

Lemma zero_columns_left_out_of_design_witness :
  NoDup (names sample_covariates) /\
  _get_residual_frames sample_pheno sample_covariates = Ok (sample_e, sample_e_, ["age"]) /\
  ~ In "sex"%string ["age"%string] /\
  In "age"%string ["age"%string].
Proof.
  assert (H1 : NoDup (names sample_covariates)).
  { apply (bool_decide_eq_true_1 (NoDup (names sample_covariates))).
    vm_compute. reflexivity. }
  assert (H2 : _get_residual_frames sample_pheno sample_covariates
               = Ok (sample_e, sample_e_, ["age"])) by (vm_compute; reflexivity).
  destruct (zero_columns_left_out_of_design _ _ _ _ _ H1 H2) as (Ha & Hb & _).
  split; [exact H1|]. split; [exact H2|]. split.
  - apply (Ha "sex"%string (FloatCol (map F64.of_Z [0; 0; 0; 0])));
      [right; left; reflexivity | vm_compute; reflexivity].
  - apply (Hb "age"%string (FloatCol (map F64.of_Z [10; 20; 30; 40])));
      [left; reflexivity | reflexivity | vm_compute; reflexivity].
Defined.

Lemma residuals_aligned_with_phenotype_witness :
  _get_residual simple_ols sample_pheno sample_covariates = Ok (sample_residual, sample_e) /\
  length sample_residual = length sample_pheno /\
  sample_residual !! 1%nat = Some F64.nan.
Proof.
  assert (H : _get_residual simple_ols sample_pheno sample_covariates
              = Ok (sample_residual, sample_e)) by (vm_compute; reflexivity).
  destruct (residuals_aligned_with_phenotype simple_ols _ _ _ _ H) as (Hlen & Hnan & _).
  split; [exact H|]. split; [exact Hlen|].
  apply Hnan; [vm_compute; lia | vm_compute; reflexivity].
Defined.

Lemma binomial_check_precedes_covariate_override_witness :
  Args.mode (Context.args logistic_context) = "logistic"%string /\
  truthy_str (Args.covariates_file (Context.args logistic_context)) = true /\
  truthy_list (Args.covariates (Context.args logistic_context)) = true /\
  _pheno_from_file_and_column sample_files (Some "pheno.txt") (Some "y") = Ok sample_pheno /\
  In (F64.dec 5 1) sample_pheno /\
  (PyStr.str_float (F64.dec 5 1) ∉ binomial_strings) /\
  _prepare_phenotype "linear" "logistic" simple_ols sample_files logistic_context
    = Raise not_binomial /\
  is_ok (fst (__enter__ "linear" "logistic" simple_ols logistic_context sample_world)) = false.
Proof.
  assert (Hp : _pheno_from_file_and_column sample_files (Some "pheno.txt") (Some "y")
               = Ok sample_pheno) by (vm_compute; reflexivity).
  assert (Hx : In (F64.dec 5 1) sample_pheno) by (right; right; left; reflexivity).
  assert (Hout : PyStr.str_float (F64.dec 5 1) ∉ binomial_strings).
  { apply (bool_decide_eq_true_1 (PyStr.str_float (F64.dec 5 1) ∉ binomial_strings)).
    vm_compute. reflexivity. }
  destruct (binomial_check_precedes_covariate_override
              "linear" "logistic" simple_ols sample_files logistic_context
              sample_pheno (F64.dec 5 1) eq_refl eq_refl eq_refl Hp Hx Hout)
    as [Hprep Henter].
  exact (conj eq_refl (conj eq_refl (conj eq_refl (conj Hp (conj Hx (conj Hout
           (conj Hprep (Henter sample_world eq_refl)))))))).
Defined.



(** *** Texts and sentinels on concrete numbers *)

(** [0.1 + 0.2], a third, [1e-05], a value within twelve digits of one, and
    the two zeros, as Python 2.7 writes them. *)
Example str_float_examples :
  map PyStr.str_float
      [F64.add (F64.dec 1 1) (F64.dec 2 1); F64.div (F64.of_Z 1) (F64.of_Z 3);
       F64.dec 1 5; F64.add (F64.of_Z 1) (F64.dec 1 13); F64.zero; F64.opp F64.zero] =
  ["0.3"; "0.333333333333"; "1e-05"; "1.0"; "0.0"; "-0.0"]%string.
Proof. vm_compute. reflexivity. Qed.

(** [-999.0005] and [-998.9995] are within the tolerance of the sentinel,
    [-998.99] is not. *)
Example nan_where_sentinel_examples :
  map nan_where_sentinel
      [F64.opp (F64.dec 9990005 4); F64.opp (F64.dec 9989995 4); F64.opp (F64.dec 99899 2)] =
  [F64.nan; F64.nan; F64.opp (F64.dec 99899 2)].
Proof. vm_compute. reflexivity. Qed.

(** *** The logistic check on concrete phenotypes *)

(** C1 fails on the code.  A case/control phenotype of zeros and ones
    without any missing value is refused under logistic mode: the set of its
    texts is [{'0.0', '1.0'}], which is not the three-element set the module
    compares with. *)
Theorem complete_binomial_phenotype_is_refused :
  _pheno_from_file_and_column binomial_files (Some "pheno.txt") (Some "y")
    = Ok (map F64.of_Z [0; 1; 1; 0]) /\
  _prepare_phenotype "linear" "logistic" simple_ols binomial_files
                     (PContext_init PlainTextPContext logistic_args)
    = Raise not_binomial.
Proof. split; vm_compute; reflexivity. Qed.

(** The same phenotype with one missing value is accepted. *)
Example binomial_phenotype_with_missing_value_is_accepted :
  is_ok (_prepare_phenotype "linear" "logistic" simple_ols binomial_missing_files
                            (PContext_init PlainTextPContext logistic_args)) = true.
Proof. vm_compute. reflexivity. Qed.

(** When entry itself fails after the backend was opened, no exit runs: the
    handle stays open. *)
Example handle_stays_open_when_entry_fails :
  with_ "linear" "logistic" simple_ols logistic_context failing_body sample_world =
  (Raise not_binomial,
   {| files := sample_files;
      expression_store := expression_store sample_world;
      open_handles := ["expr"];
      trace := [Opened "expr"] |}).
Proof. vm_compute. reflexivity. Qed.

(** ** Further properties of the loaders *)

Lemma nan_where_sentinel_not_close (v : float) :
  numpy.isclose (nan_where_sentinel v) sentinel sentinel_rtol sentinel_atol = false.
Proof.
  unfold nan_where_sentinel.
  destruct (numpy.isclose v sentinel sentinel_rtol sentinel_atol) eqn:H;
    [vm_compute; reflexivity | exact H].
Qed.

Lemma nan_where_sentinel_fixed (x : float) :
  numpy.isclose x sentinel sentinel_rtol sentinel_atol = false ->
  nan_where_sentinel x = x.
Proof. unfold nan_where_sentinel. intros ->. reflexivity. Qed.

(** X1.  A loaded phenotype has as many values as the column of the file,
    none of them within the tolerance of the sentinel, so that filtering it
    again changes nothing. *)
Theorem loaded_phenotype_is_free_of_sentinels
    (fs : Files) (path column : option string) (p : list float) :
  _pheno_from_file_and_column fs path column = Ok p ->
  (exists t c raw,
      read_table fs path = Ok t /\ column = Some c /\ assoc c t = Some raw /\
      length p = length raw) /\
  (forall x, In x p ->
             numpy.isclose x sentinel sentinel_rtol sentinel_atol = false) /\
  map nan_where_sentinel p = p.
Proof.
  unfold _pheno_from_file_and_column. intros H.
  destruct (read_table fs path) as [t|e] eqn:Ht; cbn [mbind result_bind] in H;
    [|discriminate].
  destruct column as [c|]; [|discriminate].
  destruct (assoc c t) as [raw|] eqn:Hc; [|discriminate].
  injection H as <-.
  assert (Hfree : forall x, In x (map nan_where_sentinel raw) ->
            numpy.isclose x sentinel sentinel_rtol sentinel_atol = false).
  { intros x Hx. apply in_map_iff in Hx as [v [<- _]].
    apply nan_where_sentinel_not_close. }
  split; [|split].
  - exists t, c, raw. rewrite length_map. auto.
  - exact Hfree.
  - rewrite <- (map_id (map nan_where_sentinel raw)) at 2.
    apply map_ext_in. intros x Hx. apply nan_where_sentinel_fixed, Hfree, Hx.
Qed.

Lemma getitem_list_In (t cols : Table) (ns : list string) :
  getitem_list t ns = Ok cols -> forall x, In x cols -> In x t.
Proof.
  revert cols. induction ns as [|n ns IH]; cbn [getitem_list]; intros cols H.
  - injection H as <-. intros x [].
  - destruct (assoc n t) as [xs|] eqn:Hn; [|discriminate].
    destruct (getitem_list t ns) as [rest|e]; cbn [mbind result_bind] in H;
      [|discriminate].
    injection H as <-. intros x [<-|Hx]; [apply assoc_In, Hn | eauto].
Qed.

(** X2.  The covariate frame the loader returns is rectangular: it has the
    rows of the file, and each of its columns is a column of numbers with
    that many entries. *)
Theorem loaded_covariates_are_rectangular (fs : Files) (args : Args.t) (df : DataFrame) :
  _get_covariates fs args = Ok df ->
  exists t,
    read_table fs (Args.covariates_file args) = Ok t /\
    nrows df = table_rows t /\
    forall n c, In (n, c) (columns df) ->
      exists xs, c = FloatCol xs /\ length xs = nrows df.
Proof.
  unfold _get_covariates. intros H.
  destruct (read_table fs (Args.covariates_file args)) as [t|e] eqn:Ht;
    cbn [mbind result_bind] in H; [|discriminate].
  destruct (Args.covariates args) as [ns|]; [|discriminate].
  destruct (getitem_list t ns) as [cols|e] eqn:Hcols;
    cbn [mbind result_bind] in H; [|discriminate].
  destruct (bool_decide (NoDup ns)); [|discriminate].
  injection H as <-. exists t. split; [reflexivity|]. split; [reflexivity|].
  cbn [columns nrows]. intros n c Hin.
  apply in_map_iff in Hin as [[m raw] [Heq Hraw]]. cbn [fst snd] in Heq.
  injection Heq as <- <-. eexists. split; [reflexivity|].
  rewrite length_map. apply (read_table_rows fs _ t Ht m raw).
  apply list_elem_of_In. exact (getitem_list_In _ _ _ Hcols _ Hraw).
Qed.



(** ** Further properties of the principal component filter *)

Lemma StronglySorted_lt_seq (a n : nat) : StronglySorted lt (seq a n).
Proof.
  revert a. induction n as [|n IH]; intros a; cbn [seq]; constructor.
  - apply IH.
  - apply List.Forall_forall. intros i Hi. apply in_seq in Hi. lia.
Qed.

Lemma StronglySorted_filter {A} (R : A -> A -> Prop) (f : A -> bool) (l : list A) :
  StronglySorted R l -> StronglySorted R (List.filter f l).
Proof.
  induction 1 as [|x l Hl IH Hx]; cbn [List.filter]; [constructor|].
  destruct (f x); [|exact IH]. constructor; [exact IH|].
  apply List.Forall_forall. intros y Hy. apply filter_In in Hy as [Hy _].
  rewrite List.Forall_forall in Hx. auto.
Qed.

(** X4.  The filter refuses an empty sequence with [ValueError]; on any
    other sequence it returns positions of the sequence, each once and in
    increasing order. *)
Theorem filter_returns_increasing_positions (s : list float) (ratio : float) :
  (s = [] -> _filter_eigen_values_from_max s ratio = Raise ValueError) /\
  (s <> [] ->
   exists l,
     _filter_eigen_values_from_max s ratio = Ok l /\
     StronglySorted lt l /\
     forall i, In i l -> (i < length s)%nat).
Proof.
  split; [intros ->; reflexivity|]. intros Hs.
  assert (Hmax : exists m, numpy.max s = Some m)
    by (destruct s; [contradiction | eexists; reflexivity]).
  destruct Hmax as [m Hm]. eexists.
  split; [exact (filter_eigen_values_indices s ratio m Hm)|]. split.
  - apply StronglySorted_filter, StronglySorted_lt_seq.
  - intros i Hi. apply filter_In in Hi as [Hi _]. apply in_seq in Hi. lia.
Qed.

Lemma maximum_nan_r (a : float) : numpy.maximum a F64.nan = F64.nan.
Proof. destruct a as [[]|[]| |[] m e]; reflexivity. Qed.

Lemma fold_maximum_nan_acc (l : list float) :
  fold_left numpy.maximum l F64.nan = F64.nan.
Proof. induction l as [|x l IH]; [reflexivity | exact IH]. Qed.

Lemma fold_maximum_nan (l : list float) (a : float) :
  In F64.nan (a :: l) -> fold_left numpy.maximum l a = F64.nan.
Proof.
  revert a. induction l as [|x l IH]; intros a Hin.
  - destruct Hin as [->|[]]. reflexivity.
  - cbn [fold_left]. destruct Hin as [->|[->|Hin]].
    + apply fold_maximum_nan_acc.
    + rewrite maximum_nan_r. apply fold_maximum_nan_acc.
    + apply IH. right. exact Hin.
Qed.

(** X5.  A sequence of eigenvalues with a NaN in it selects nothing: the
    maximum is then NaN, and no value compares above a NaN threshold. *)
Theorem filter_selects_nothing_with_a_nan (s : list float) (ratio : float) :
  In F64.nan s -> _filter_eigen_values_from_max s ratio = Ok [].
Proof.
  intros Hin. destruct s as [|x s']; [destruct Hin|].
  assert (Hm : numpy.max (x :: s') = Some F64.nan).
  { cbn [numpy.max]. f_equal. apply fold_maximum_nan, Hin. }
  rewrite (filter_eigen_values_indices _ ratio _ Hm). f_equal.
  apply filter_none. intros i _. destruct ((x :: s') !! i); reflexivity.
Qed.

(** ** Further properties of the residualizer *)

Section ResidualizerEdges.

Variable OLS_fittedvalues : list float -> list (string * list float) -> result (list float).

(** The column [order] of the cleaned frame, when it is still there. *)
Lemma order_column_of_cleaned (pheno : list float) (cov : DataFrame) (d : column) :
  nrows cov = length pheno ->
  In ("order"%string, d) (columns (dropna (working_frame pheno cov))) ->
  d = IntCol (map Z.of_nat (complete_rows pheno cov)).
Proof.
  intros Hn Hin. apply in_dropna in Hin as [d0 [Hin ->]].
  apply in_working_frame in Hin as [[Hw _]|[[_ ->]|[Hne _]]];
    [discriminate | | discriminate].
  rewrite (retained_working_frame pheno cov Hn), Hn.
  apply take_order_column. intros i Hi.
  apply (complete_rows_In OLS_fittedvalues) in Hi. tauto.
Qed.

(** X6.  The residualizer needs a complete row other than the first one:
    when no row, or only row 0, is free of missing values, the column
    [order] is dropped with the all-zero columns (or [pheno] is, when no row
    is left) and the call raises [ValueError]. *)
Theorem residualizer_needs_a_row_after_the_first (pheno : list float) (cov : DataFrame) :
  (forall i, In i (complete_rows pheno cov) -> i = 0%nat) ->
  _get_residual OLS_fittedvalues pheno cov = Raise ValueError.
Proof.
  intros Hzero.
  assert (Hf : _get_residual_frames pheno cov = Raise ValueError).
  { destruct (_get_residual_frames pheno cov) as [[[e e_] keys]|err] eqn:H.
    - exfalso. apply get_residual_frames_Ok in H as (Hn & -> & -> & keys1 & H1 & H2).
      apply list_remove_Ok in H1 as (_ & Hsub1 & _).
      apply list_remove_Ok in H2 as (Hin & _).
      apply Hsub1, names_In in Hin as [d Hd].
      apply in_drop_zero_columns in Hd as [_ [d' [Hd' Hnz]]].
      apply (order_column_of_cleaned pheno cov d' Hn) in Hd'. subst d'.
      cbn [all_zero] in Hnz. apply not_true_iff_false in Hnz. apply Hnz.
      apply forallb_forall. intros z Hz.
      apply in_map_iff in Hz as [i [<- Hi]]. rewrite (Hzero i Hi). reflexivity.
    - f_equal. exact (get_residual_frames_Raise _ _ _ H). }
  unfold _get_residual. rewrite Hf. reflexivity.
Qed.

(** What a successful call has computed. *)
Lemma get_residual_Ok (pheno r : list float) (cov cov' : DataFrame) :
  _get_residual OLS_fittedvalues pheno cov = Ok (r, cov') ->
  let kept := complete_rows pheno cov in
  nrows cov = length pheno /\
  ~ In "residual"%string (names (working_frame pheno cov)) /\
  exists X fitted,
    OLS_fittedvalues (map (fun i => nth i pheno F64.nan) kept) X = Ok fitted /\
    length fitted = length kept /\
    r = merge_left (map Z.of_nat (seq 0 (length pheno)))
          (zip (map Z.of_nat kept)
               (zip_with F64.sub (map (fun i => nth i pheno F64.nan) kept) fitted)).
Proof.
  intros H kept. unfold _get_residual in H.
  destruct (_get_residual_frames pheno cov) as [[[e e_] keys]|err] eqn:Hf;
    cbn [mbind result_bind] in H; [|discriminate].
  apply get_residual_frames_Ok in Hf as (Hn & -> & -> & keys1 & H1 & H2).
  set (wf := working_frame pheno cov) in *.
  set (e_ := drop_zero_columns (dropna wf)) in *.
  destruct (assoc "pheno" (columns e_)) as [y|] eqn:Hy; [|discriminate].
  apply assoc_In, in_drop_zero_columns in Hy as [Hy _].
  apply pheno_column_of_cleaned in Hy.
  rewrite (retained_working_frame pheno cov Hn) in Hy. fold kept in Hy. subst y.
  cbn [values take_rows] in H.
  destruct (design e_ keys) as [X|err] eqn:HX; cbn [mbind result_bind] in H; [|discriminate].
  destruct (OLS_fittedvalues _ X) as [fitted|err] eqn:Hfit;
    cbn [mbind result_bind] in H; [|discriminate].
  destruct (resid _ fitted) as [r0|err] eqn:Hres;
    cbn [mbind result_bind] in H; [|discriminate].
  apply resid_Ok in Hres as [Hlen Hr0]. rewrite length_map in Hlen.
  assert (Hrows : nrows e_ = length kept).
  { unfold e_, drop_zero_columns, getitem_names, dropna. cbn [nrows].
    unfold wf. rewrite (retained_working_frame pheno cov Hn). reflexivity. }
  rewrite setitem_same_length in H
    by (cbn [column_length]; rewrite Hr0, length_zip_with, length_map; lia).
  cbn [mbind result_bind] in H.
  destruct (existsb (String.eqb "residual") (names wf)) eqn:Hres; [discriminate|].
  destruct (assoc "order" (columns wf)) as [lk|] eqn:Hlk; [|discriminate].
  apply assoc_In, in_working_frame in Hlk as [[Hw _]|[[_ ->]|[Hne _]]];
    [discriminate | | discriminate].
  unfold order_column in H at 1.
  destruct (assoc "order" (columns (assign e_ "residual" (FloatCol r0)))) as [rk|] eqn:Hrk;
    [|discriminate].
  apply assoc_In, in_assign in Hrk as [[_ Hrk]|[Hne _]]; [|discriminate].
  apply in_drop_zero_columns in Hrk as [Hrk _].
  apply (order_column_of_cleaned pheno cov rk Hn) in Hrk. subst rk. fold kept in H.
  destruct (assoc "residual" (columns (assign e_ "residual" (FloatCol r0)))) as [rs|] eqn:Hrs;
    [|discriminate].
  apply assoc_In, in_assign in Hrs as [[Hne _]|[_ ->]]; [congruence|].
  injection H as <- <-.
  split; [exact Hn|]. split.
  - intros Hin. apply existsb_names in Hin. congruence.
  - exists X, fitted. rewrite Hn, <- Hr0. auto.
Qed.

(** X7.  A covariate called [residual] makes the residualizer fail on every
    input: the merge renames the two [residual] columns, and the last line
    finds none under that name. *)
Theorem covariate_called_residual_fails (pheno : list float) (cov : DataFrame) :
  In "residual"%string (names cov) ->
  is_ok (_get_residual OLS_fittedvalues pheno cov) = false.
Proof.
  intros Hin.
  destruct (_get_residual OLS_fittedvalues pheno cov) as [[r cov']|err] eqn:H;
    [|reflexivity].
  exfalso. apply get_residual_Ok in H as (_ & Hout & _). apply Hout.
  apply names_In in Hin as [d Hd]. apply names_In. exists d.
  apply in_working_frame. left. auto.
Qed.

Lemma complete_rows_all (pheno : list float) (cov : DataFrame) :
  (forall i, (i < length pheno)%nat -> row_complete pheno cov i = true) ->
  complete_rows pheno cov = seq 0 (length pheno).
Proof.
  intros Hall. unfold complete_rows.
  rewrite <- (List.filter_ext_in (fun _ => true)).
  - induction (seq 0 (length pheno)) as [|x l IH]; [reflexivity|].
    cbn [List.filter]. rewrite IH. reflexivity.
  - intros i Hi. apply in_seq in Hi. symmetry. apply Hall. lia.
Qed.

Lemma map_nth_seq (l : list float) :
  map (fun i => nth i l F64.nan) (seq 0 (length l)) = l.
Proof.
  apply list_eq. intros i. rewrite list_lookup_fmap.
  destruct (l !! i) as [x|] eqn:Hx.
  - rewrite lookup_seq_lt by (eapply lookup_lt_Some; exact Hx).
    cbn [fmap option_fmap option_map Nat.add]. f_equal.
    apply nth_lookup_Some with (d := F64.nan) in Hx. exact Hx.
  - rewrite lookup_seq_ge by (apply lookup_ge_None; exact Hx). reflexivity.
Qed.

(** X8.  On data without any missing value the residualizer drops no row:
    the fit receives the whole phenotype and the output is, entry by entry,
    the phenotype minus the fitted values. *)
Theorem residuals_of_complete_data (pheno r : list float) (cov cov' : DataFrame) :
  (forall i, (i < length pheno)%nat -> row_complete pheno cov i = true) ->
  _get_residual OLS_fittedvalues pheno cov = Ok (r, cov') ->
  exists X fitted,
    OLS_fittedvalues pheno X = Ok fitted /\
    length fitted = length pheno /\
    r = zip_with F64.sub pheno fitted.
Proof.
  intros Hall H. apply get_residual_Ok in H as (_ & _ & X & fitted & Hfit & Hlen & ->).
  rewrite (complete_rows_all pheno cov Hall) in *.
  rewrite map_nth_seq in *. rewrite length_seq in Hlen.
  exists X, fitted. split; [exact Hfit|]. split; [exact Hlen|].
  set (rs := zip_with F64.sub pheno fitted).
  assert (Hrs : length rs = length (seq 0 (length pheno))).
  { unfold rs. rewrite length_zip_with, length_seq. lia. }
  destruct (merge_left_range (length pheno) (seq 0 (length pheno)) rs
              (NoDup_seq _ _) Hrs) as (Hout & _ & Hval).
  apply list_eq. intros i. destruct (rs !! i) as [v|] eqn:Hv.
  - assert (Hi : (i < length pheno)%nat).
    { apply lookup_lt_Some in Hv. rewrite Hrs, length_seq in Hv. exact Hv. }
    apply (Hval i i v Hi); [apply lookup_seq_lt; exact Hi | exact Hv].
  - apply lookup_ge_None. apply lookup_ge_None in Hv.
    rewrite Hrs, length_seq in Hv. rewrite Hout. exact Hv.
Qed.

End ResidualizerEdges.

(** ** Further properties of construction and entry *)

(** X18.  The mode is checked before anything else: with a mode outside the
    allowed ones both constructors raise the invalid-arguments error,
    whatever the expression options are. *)
Theorem invalid_mode_is_refused_first (modes : list string) (args : Args.t) :
  Args.mode args ∉ modes ->
  mp_context_from_args modes args = Raise (InvalidArguments "Invalid mode") /\
  p_context_from_args modes args = Raise (InvalidArguments "Invalid mode").
Proof.
  intros Hm. unfold mp_context_from_args, p_context_from_args, _check_args, _check_args_file.
  rewrite (bool_decide_eq_false_2 _ Hm). split; reflexivity.
Qed.

(** X19.  The single-tissue constructor has no case for a configuration
    without either expression file: for a valid mode it then raises the
    unbound-local error of its last line instead of returning a context or
    an invalid-arguments error, whatever the folder options are. *)
Theorem single_tissue_without_a_file_is_unbound (modes : list string) (args : Args.t) :
  Args.mode args ∈ modes ->
  truthy_str (Args.hdf5_expression_file args) = false ->
  truthy_str (Args.expression_file args) = false ->
  p_context_from_args modes args = Raise (UnboundLocalError "context").
Proof.
  intros Hm Hh Hf. unfold p_context_from_args, _check_args_file.
  rewrite (bool_decide_eq_true_2 _ Hm), Hh, Hf. reflexivity.
Qed.

Lemma constructed_context_args (modes : list string) (args : Args.t) (ctx : Context.t) :
  mp_context_from_args modes args = Ok ctx \/ p_context_from_args modes args = Ok ctx ->
  Context.args ctx = args /\ Args.mode args ∈ modes /\
  Context.mode ctx = None /\ Context.pheno ctx = None /\ Context.covariates ctx = None.
Proof.
  unfold mp_context_from_args, p_context_from_args, _check_args, _check_args_file.
  destruct (bool_decide (Args.mode args ∈ modes)) eqn:Hm; cbn [negb mbind result_bind].
  - apply bool_decide_eq_true_1 in Hm. intros [H|H].
    + destruct (_expression_from_args args) as [x|e]; cbn [mbind result_bind] in H;
        [|discriminate].
      injection H as <-. repeat split. exact Hm.
    + destruct (truthy_str (Args.hdf5_expression_file args));
        [|destruct (truthy_str (Args.expression_file args)); [|discriminate]];
        injection H as <-; repeat split; exact Hm.
  - intros [H|H]; discriminate.
Qed.

Section EntryEdges.

Variables MTPMode_K_LINEAR MTPMode_K_LOGISTIC : string.
Variable OLS_fittedvalues : list float -> list (string * list float) -> result (list float).

Local Abbreviation prepare :=
  (_prepare_phenotype MTPMode_K_LINEAR MTPMode_K_LOGISTIC OLS_fittedvalues).
Local Abbreviation get_residual := (_get_residual OLS_fittedvalues).
Local Abbreviation enter :=
  (__enter__ MTPMode_K_LINEAR MTPMode_K_LOGISTIC OLS_fittedvalues).
Local Abbreviation run :=
  (with_ MTPMode_K_LINEAR MTPMode_K_LOGISTIC OLS_fittedvalues).

(** X9.  The preparation succeeds exactly when the phenotype loads, passes
    the logistic comparison if logistic mode is asked, and, if covariates
    are configured, the covariates load and the residualizer returns. *)
Theorem preparation_succeeds_iff (fs : Files) (context : Context.t) :
  is_ok (prepare fs context) = true <->
  exists p,
    _pheno_from_file_and_column fs (Args.input_phenos_file (Context.args context))
                                   (Args.input_phenos_column (Context.args context)) = Ok p /\
    (Args.mode (Context.args context) = MTPMode_K_LOGISTIC ->
     pheno_strings p = binomial_strings) /\
    (truthy_str (Args.covariates_file (Context.args context))
     && truthy_list (Args.covariates (Context.args context)) = true ->
     exists cov,
       _get_covariates fs (Context.args context) = Ok cov /\
       is_ok (get_residual p cov) = true).
Proof.
  split.
  - destruct (prepare fs context) as [c|e] eqn:H; [|discriminate]. intros _.
    apply (prepare_phenotype_Ok MTPMode_K_LINEAR MTPMode_K_LOGISTIC OLS_fittedvalues)
      in H.
    destruct H as (p & Hp & Hb & [(Ht & cov & r & cov' & Hc & Hr & _)|(Ht & _)]).
    + exists p. split; [exact Hp|]. split; [exact Hb|]. intros _.
      exists cov. rewrite Hr. auto.
    + exists p. split; [exact Hp|]. split; [exact Hb|]. rewrite Ht. discriminate.
  - intros (p & Hp & Hb & Hcov). unfold _prepare_phenotype.
    rewrite Hp. cbn [mbind result_bind].
    assert (Hcheck :
      (if String.eqb (Args.mode (Context.args context)) MTPMode_K_LOGISTIC
       then if bool_decide (pheno_strings p ≠ binomial_strings)
            then Raise not_binomial else Ok tt
       else Ok tt) = Ok tt).
    { destruct (String.eqb_spec (Args.mode (Context.args context)) MTPMode_K_LOGISTIC)
        as [Hm|Hm]; [|reflexivity].
      rewrite bool_decide_eq_false_2; [reflexivity|]. intros Hne. exact (Hne (Hb Hm)). }
    unfold not_binomial in Hcheck. rewrite Hcheck. cbn [mbind result_bind].
    destruct (truthy_str _ && truthy_list _); [|reflexivity].
    destruct (Hcov eq_refl) as (cov & Hc & Hr). rewrite Hc. cbn [mbind result_bind].
    destruct (_get_residual OLS_fittedvalues p cov) as [[r cov']|e]; [reflexivity|discriminate].
Qed.

(** X11.  A context made by one of the constructors and then prepared has a
    mode of the allowed set, provided the linear mode belongs to it: the
    mode asked, which the constructor checked, or the linear one. *)
Theorem prepared_mode_is_valid
    (modes : list string) (fs : Files) (args : Args.t) (ctx c : Context.t) :
  MTPMode_K_LINEAR ∈ modes ->
  mp_context_from_args modes args = Ok ctx \/ p_context_from_args modes args = Ok ctx ->
  prepare fs ctx = Ok c ->
  exists m, get_mode c = Some m /\ m ∈ modes.
Proof.
  intros Hlin Hctx H. apply constructed_context_args in Hctx as (Hargs & Hm & _).
  apply (prepare_phenotype_Ok MTPMode_K_LINEAR MTPMode_K_LOGISTIC OLS_fittedvalues) in H.
  rewrite Hargs in H.
  destruct H as (p & _ & _ & [(_ & cov & r & cov' & _ & _ & ->)|(_ & ->)]).
  - exists MTPMode_K_LINEAR. split; [reflexivity | exact Hlin].
  - exists (Args.mode args). split; [reflexivity | exact Hm].
Qed.

(** X12.  The phenotype of a prepared context has the length of the loaded
    phenotype column, with or without residualization. *)
Theorem prepared_phenotype_keeps_its_length (fs : Files) (context c : Context.t) :
  prepare fs context = Ok c ->
  exists p q,
    _pheno_from_file_and_column fs (Args.input_phenos_file (Context.args context))
                                   (Args.input_phenos_column (Context.args context)) = Ok p /\
    get_pheno c = Some q /\
    length q = length p.
Proof.
  intros H.
  apply (prepare_phenotype_Ok MTPMode_K_LINEAR MTPMode_K_LOGISTIC OLS_fittedvalues) in H.
  destruct H as (p & Hp & _ & [(_ & cov & r & cov' & _ & Hr & ->)|(_ & ->)]).
  - exists p, r. split; [exact Hp|]. split; [reflexivity|].
    apply get_residual_Ok in Hr as (_ & _ & X & fitted & _ & Hlen & ->).
    apply merge_left_range.
    + apply complete_rows_NoDup.
    + rewrite length_zip_with, length_map. lia.
  - exists p, p. auto.
Qed.



End EntryEdges.

(** ** Further properties of the scope *)

Lemma truthy_str_Some (o : option string) :
  truthy_str o = true -> exists f, o = Some f /\ f <> ""%string.
Proof.
  destruct o as [f|]; [|discriminate]. cbn [truthy_str]. intros H.
  exists f. split; [reflexivity|]. apply negb_true_iff, String.eqb_neq in H. exact H.
Qed.

(** The manager a multi-tissue context is constructed with has the
    configured folder: the hdf5 one when given, the expression one
    otherwise. *)
Lemma constructed_manager_folder (modes : list string) (args : Args.t) (ctx : Context.t) :
  mp_context_from_args modes args = Ok ctx ->
  Context.class ctx = MTPContext /\
  exists x f,
    Context.expression ctx = Some x /\ manager_folder x = Some f /\ f <> ""%string /\
    (if truthy_str (Args.hdf5_expression_folder args)
     then Args.hdf5_expression_folder args else Args.expression_folder args) = Some f.
Proof.
  unfold mp_context_from_args, _check_args, _expression_from_args.
  destruct (bool_decide (Args.mode args ∈ modes)); cbn [negb mbind result_bind];
    [|discriminate].
  destruct (truthy_str (Args.hdf5_expression_folder args)) eqn:Hh.
  - cbn [mbind result_bind]. intros [= <-]. split; [reflexivity|].
    destruct (truthy_str_Some _ Hh) as (f & Hf & Hne).
    eexists. exists f. cbn [Context.expression MTPContext_init manager_folder]. auto.
  - destruct (truthy_str (Args.expression_folder args)) eqn:He.
    + destruct (truthy_str_Some _ He) as (f & Hf & Hne).
      destruct (Args.memory_efficient args); cbn [andb mbind result_bind];
        intros [= <-]; (split; [reflexivity|]); eexists; exists f;
        cbn [Context.expression MTPContext_init manager_folder]; auto.
    + rewrite andb_false_r. cbn [mbind result_bind]. discriminate.
Qed.

Section ScopeEdges.

Variables MTPMode_K_LINEAR MTPMode_K_LOGISTIC : string.
Variable OLS_fittedvalues : list float -> list (string * list float) -> result (list float).

Local Abbreviation prepare :=
  (_prepare_phenotype MTPMode_K_LINEAR MTPMode_K_LOGISTIC OLS_fittedvalues).
Local Abbreviation enter :=
  (__enter__ MTPMode_K_LINEAR MTPMode_K_LOGISTIC OLS_fittedvalues).
Local Abbreviation run :=
  (with_ MTPMode_K_LINEAR MTPMode_K_LOGISTIC OLS_fittedvalues).

(** X14.  When the preparation raises after the backend was opened, the
    scoped statement raises that error without running the body or any
    exit: the handle entry opened is still open and the only event is its
    opening.  This holds for the multi-tissue context and for the HDF5
    one. *)
Theorem failed_entry_leaves_the_backend_open {A : Type}
    (context : Context.t) (body : Context.t -> M A) (w : World)
    (f : string) (genes : list string) (err : exn) :
  expression_store w !! f = Some genes ->
  let opened :=
    {| files := files w; expression_store := expression_store w;
       open_handles := f :: open_handles w; trace := trace w ++ [Opened f] |} in
  (Context.class context = MTPContext ->
   (exists x, Context.expression context = Some x /\ manager_folder x = Some f) ->
   prepare (files w) context = Raise err ->
   run context body w = (Raise err, opened)) /\
  (Context.class context = HDF5PContext ->
   Args.hdf5_expression_file (Context.args context) = Some f ->
   prepare (files w)
           (set_expression (HDF5Expression_Expression genes f) (set_h5 f context))
     = Raise err ->
   run context body w = (Raise err, opened)).
Proof.
  intros Hstore opened. split.
  - intros Hcls (x & Hx & Hf) Hprep. unfold with_, __enter__. rewrite Hcls.
    unfold MTPContext__enter__, bindM, Expression_enter. rewrite Hx.
    unfold bindM, open_storage. rewrite Hf, Hstore.
    unfold retM, readM. cbn [files]. rewrite Hprep. reflexivity.
  - intros Hcls Hf Hprep. unfold with_, __enter__. rewrite Hcls.
    unfold HDF5PContext__enter__, bindM, HDF5Expression__structure_file, open_storage.
    rewrite Hf, Hstore. unfold readM. cbn [files fst snd]. rewrite Hprep. reflexivity.
Qed.

(** X15.  A plain-text single-tissue context holds no handle: entry opens
    none, its exit does nothing, and the scoped statement is the body run on
    the entered context. *)
Theorem plain_text_scope_is_the_body {A : Type}
    (context c : Context.t) (body : Context.t -> M A) (w w1 : World) :
  Context.class context = PlainTextPContext ->
  enter context w = (Ok c, w1) ->
  run context body w = body c w1 /\
  trace w1 = trace w /\
  open_handles w1 = open_handles w.
Proof.
  intros Hcls Henter.
  pose proof (enter_opens_what_exit_closes MTPMode_K_LINEAR MTPMode_K_LOGISTIC
                OLS_fittedvalues _ _ _ _ Henter) as Hex.
  rewrite Hcls in Hex. destruct Hex as (Htr & Hop & Hexit).
  split; [|auto]. unfold with_. rewrite Henter.
  destruct (body c w1) as [r w2]. rewrite Hexit. reflexivity.
Qed.

(** X16.  Entering a context made by the multi-tissue constructor opens the
    configured folder and nothing else: the hdf5 folder when it is given,
    the expression folder otherwise, a name that is not empty. *)
Theorem multi_tissue_entry_opens_the_configured_folder
    (modes : list string) (args : Args.t) (ctx c : Context.t) (w w1 : World) :
  mp_context_from_args modes args = Ok ctx ->
  enter ctx w = (Ok c, w1) ->
  exists f,
    (if truthy_str (Args.hdf5_expression_folder args)
     then Args.hdf5_expression_folder args else Args.expression_folder args) = Some f /\
    f <> ""%string /\
    trace w1 = trace w ++ [Opened f] /\
    open_handles w1 = f :: open_handles w.
Proof.
  intros Hctx Henter.
  apply constructed_manager_folder in Hctx as (Hcls & x & f & Hx & Hf & Hne & Hcfg).
  exists f. split; [exact Hcfg|]. split; [exact Hne|].
  unfold __enter__ in Henter. rewrite Hcls in Henter.
  unfold MTPContext__enter__, bindM, Expression_enter in Henter. rewrite Hx in Henter.
  unfold bindM in Henter.
  destruct (open_storage (manager_folder x) w) as [[gh|e] w'] eqn:Ho; [|discriminate].
  unfold retM, readM in Henter. injection Henter as _ <-.
  apply open_storage_Ok in Ho as (Hpath & Htr & Hop).
  rewrite Hf in Hpath. injection Hpath as ->. auto.
Qed.

(** X17.  Entering a context made by the single-tissue constructor for an
    hdf5 expression file opens that file, keeps its handle in the context
    and builds the expression on it. *)
Theorem hdf5_entry_keeps_the_handle
    (modes : list string) (args : Args.t) (ctx c : Context.t) (w w1 : World) :
  p_context_from_args modes args = Ok ctx ->
  truthy_str (Args.hdf5_expression_file args) = true ->
  enter ctx w = (Ok c, w1) ->
  exists f genes,
    Args.hdf5_expression_file args = Some f /\
    expression_store w !! f = Some genes /\
    Context.h5 c = Some f /\
    Context.expression c = Some (HDF5Expression_Expression genes f) /\
    trace w1 = trace w ++ [Opened f] /\
    open_handles w1 = f :: open_handles w.
Proof.
  intros Hctx Hh Henter.
  unfold p_context_from_args, _check_args_file in Hctx.
  destruct (bool_decide (Args.mode args ∈ modes)); cbn [negb mbind result_bind] in Hctx;
    [|discriminate].
  rewrite Hh in Hctx. injection Hctx as <-.
  unfold __enter__ in Henter. cbn [Context.class PContext_init] in Henter.
  unfold HDF5PContext__enter__, bindM, HDF5Expression__structure_file, open_storage in Henter.
  cbn [Context.args PContext_init] in Henter.
  destruct (Args.hdf5_expression_file args) as [f|]; [|discriminate].
  destruct (expression_store w !! f) as [genes|] eqn:Hs; [|discriminate].
  unfold readM in Henter. cbn [fst snd files] in Henter. injection Henter as H <-.
  apply (prepare_keeps_backend MTPMode_K_LINEAR MTPMode_K_LOGISTIC OLS_fittedvalues)
    in H as (_ & He & H5).
  exists f, genes. repeat split; assumption.
Qed.

End ScopeEdges.

(** ** The further properties on the sample inputs *)

Lemma loaded_phenotype_is_free_of_sentinels_witness :
  _pheno_from_file_and_column sample_files (Some "pheno.txt") (Some "y") = Ok sample_pheno /\
  map nan_where_sentinel sample_pheno = sample_pheno.
Proof.
  assert (H : _pheno_from_file_and_column sample_files (Some "pheno.txt") (Some "y")
              = Ok sample_pheno) by (vm_compute; reflexivity).
  exact (conj H (proj2 (proj2 (loaded_phenotype_is_free_of_sentinels _ _ _ _ H)))).
Defined.

Lemma loaded_covariates_are_rectangular_witness :
  _get_covariates sample_files sample_args = Ok age_covariates /\
  exists t,
    read_table sample_files (Args.covariates_file sample_args) = Ok t /\
    nrows age_covariates = table_rows t /\
    forall n c, In (n, c) (columns age_covariates) ->
      exists xs, c = FloatCol xs /\ length xs = nrows age_covariates.
Proof.
  assert (H : _get_covariates sample_files sample_args = Ok age_covariates)
    by (vm_compute; reflexivity).
  exact (conj H (loaded_covariates_are_rectangular _ _ _ H)).
Defined.


Lemma filter_returns_increasing_positions_witness :
  sample_eigenvalues <> [] /\
  exists l,
    _filter_eigen_values_from_max sample_eigenvalues (F64.dec 5 1) = Ok l /\
    StronglySorted lt l /\
    forall i, In i l -> (i < length sample_eigenvalues)%nat.
Proof.
  assert (H : sample_eigenvalues <> []) by discriminate.
  exact (conj H (proj2 (filter_returns_increasing_positions
                          sample_eigenvalues (F64.dec 5 1)) H)).
Defined.

Lemma filter_selects_nothing_with_a_nan_witness :
  In F64.nan nan_eigenvalues /\
  _filter_eigen_values_from_max nan_eigenvalues (F64.dec 5 1) = Ok [].
Proof.
  assert (H : In F64.nan nan_eigenvalues) by (right; left; reflexivity).
  exact (conj H (filter_selects_nothing_with_a_nan _ _ H)).
Defined.

Lemma residualizer_needs_a_row_after_the_first_witness :
  complete_rows first_row_pheno sample_covariates = [0%nat] /\
  _get_residual simple_ols first_row_pheno sample_covariates = Raise ValueError.
Proof.
  assert (H : complete_rows first_row_pheno sample_covariates = [0%nat])
    by (vm_compute; reflexivity).
  split; [exact H|].
  apply (residualizer_needs_a_row_after_the_first simple_ols).
  rewrite H. intros i [<-|[]]. reflexivity.
Defined.

Lemma covariate_called_residual_fails_witness :
  In "residual"%string (names residual_covariates) /\
  is_ok (_get_residual simple_ols sample_pheno residual_covariates) = false.
Proof.
  assert (H : In "residual"%string (names residual_covariates))
    by (right; left; reflexivity).
  exact (conj H (covariate_called_residual_fails simple_ols _ _ H)).
Defined.

Lemma residuals_of_complete_data_witness :
  (forall i, (i < length complete_pheno)%nat ->
             row_complete complete_pheno age_covariates i = true) /\
  _get_residual simple_ols complete_pheno age_covariates
    = Ok (complete_residual, working_frame complete_pheno age_covariates) /\
  exists X fitted,
    simple_ols complete_pheno X = Ok fitted /\
    length fitted = length complete_pheno /\
    complete_residual = zip_with F64.sub complete_pheno fitted.
Proof.
  assert (Hall : forall i, (i < length complete_pheno)%nat ->
                  row_complete complete_pheno age_covariates i = true).
  { intros i Hi. cbn [length complete_pheno map] in Hi.
    destruct i as [|[|[|[|i]]]]; [vm_compute; reflexivity .. | lia]. }
  assert (H : _get_residual simple_ols complete_pheno age_covariates
              = Ok (complete_residual, working_frame complete_pheno age_covariates))
    by (vm_compute; reflexivity).
  exact (conj Hall (conj H (residuals_of_complete_data simple_ols _ _ _ _ Hall H))).
Defined.

Lemma preparation_succeeds_iff_witness :
  is_ok (_prepare_phenotype "linear" "logistic" simple_ols logistic_files logistic_context)
    = true /\
  exists p,
    _pheno_from_file_and_column logistic_files (Some "pheno.txt") (Some "y") = Ok p /\
    pheno_strings p = binomial_strings.
Proof.
  assert (H : is_ok (_prepare_phenotype "linear" "logistic" simple_ols logistic_files
                       logistic_context) = true) by (vm_compute; reflexivity).
  split; [exact H|].
  destruct (proj1 (preparation_succeeds_iff "linear" "logistic" simple_ols
                     logistic_files logistic_context) H) as (p & Hp & Hb & _).
  exists p. split; [exact Hp | exact (Hb eq_refl)].
Defined.

Lemma logistic_entry_needs_missing_value_witness :
  Args.mode (Context.args logistic_context) = "logistic"%string /\
  _prepare_phenotype "linear" "logistic" simple_ols logistic_files logistic_context
    = Ok logistic_prepared /\
  exists p,
    _pheno_from_file_and_column logistic_files (Some "pheno.txt") (Some "y") = Ok p /\
    In F64.nan p.
Proof.
  assert (H : _prepare_phenotype "linear" "logistic" simple_ols logistic_files
                logistic_context = Ok logistic_prepared) by (vm_compute; reflexivity).
  exact (conj eq_refl (conj H
           (logistic_entry_needs_missing_value "linear" "logistic" simple_ols
              logistic_files logistic_context logistic_prepared eq_refl H))).
Defined.

Lemma prepared_mode_is_valid_witness :
  "linear"%string ∈ sample_modes /\
  mp_context_from_args sample_modes logistic_covariates_args = Ok logistic_context /\
  _prepare_phenotype "linear" "logistic" simple_ols logistic_files logistic_context
    = Ok logistic_prepared /\
  exists m, get_mode logistic_prepared = Some m /\ m ∈ sample_modes.
Proof.
  assert (H1 : "linear"%string ∈ sample_modes) by (left; reflexivity).
  assert (H2 : mp_context_from_args sample_modes logistic_covariates_args
               = Ok logistic_context) by (vm_compute; reflexivity).
  assert (H3 : _prepare_phenotype "linear" "logistic" simple_ols logistic_files
                 logistic_context = Ok logistic_prepared) by (vm_compute; reflexivity).
  exact (conj H1 (conj H2 (conj H3
           (prepared_mode_is_valid "linear" "logistic" simple_ols sample_modes
              logistic_files logistic_covariates_args logistic_context
              logistic_prepared H1 (or_introl H2) H3)))).
Defined.

Lemma prepared_phenotype_keeps_its_length_witness :
  _prepare_phenotype "linear" "logistic" simple_ols logistic_files logistic_context
    = Ok logistic_prepared /\
  exists p q,
    _pheno_from_file_and_column logistic_files (Some "pheno.txt") (Some "y") = Ok p /\
    get_pheno logistic_prepared = Some q /\
    length q = length p.
Proof.
  assert (H : _prepare_phenotype "linear" "logistic" simple_ols logistic_files
                logistic_context = Ok logistic_prepared) by (vm_compute; reflexivity).
  exact (conj H (prepared_phenotype_keeps_its_length "linear" "logistic" simple_ols
                   logistic_files logistic_context logistic_prepared H)).
Defined.


Lemma failed_entry_leaves_the_backend_open_witness :
  expression_store sample_world !! "expr"%string = Some ["ENSG01"; "ENSG02"]%string /\
  _prepare_phenotype "linear" "logistic" simple_ols (files sample_world) logistic_context
    = Raise not_binomial /\
  with_ "linear" "logistic" simple_ols logistic_context failing_body sample_world =
  (Raise not_binomial,
   {| files := files sample_world;
      expression_store := expression_store sample_world;
      open_handles := "expr"%string :: open_handles sample_world;
      trace := trace sample_world ++ [Opened "expr"] |}).
Proof.
  assert (Hs : expression_store sample_world !! "expr"%string
               = Some ["ENSG01"; "ENSG02"]%string) by (vm_compute; reflexivity).
  assert (Hp : _prepare_phenotype "linear" "logistic" simple_ols (files sample_world)
                 logistic_context = Raise not_binomial) by (vm_compute; reflexivity).
  refine (conj Hs (conj Hp
            (proj1 (failed_entry_leaves_the_backend_open "linear" "logistic" simple_ols
                      logistic_context failing_body sample_world "expr" _ not_binomial Hs)
                   eq_refl _ Hp))).
  eexists. split; reflexivity.
Defined.

Lemma plain_text_scope_is_the_body_witness :
  Context.class plain_text_context = PlainTextPContext /\
  plain_text_entry = (Ok plain_text_entered, single_tissue_world) /\
  with_ "linear" "logistic" simple_ols plain_text_context failing_body single_tissue_world
    = failing_body plain_text_entered single_tissue_world.
Proof.
  assert (H : plain_text_entry = (Ok plain_text_entered, single_tissue_world))
    by (vm_compute; reflexivity).
  exact (conj eq_refl (conj H
           (proj1 (plain_text_scope_is_the_body "linear" "logistic" simple_ols
                     plain_text_context plain_text_entered failing_body
                     single_tissue_world single_tissue_world eq_refl H)))).
Defined.

Lemma multi_tissue_entry_opens_the_configured_folder_witness :
  mp_context_from_args sample_modes sample_args = Ok sample_context /\
  __enter__ "linear" "logistic" simple_ols sample_context sample_world
    = (Ok entered_context, entered_world) /\
  exists f,
    Args.expression_folder sample_args = Some f /\ f <> ""%string /\
    trace entered_world = trace sample_world ++ [Opened f] /\
    open_handles entered_world = f :: open_handles sample_world.
Proof.
  assert (H1 : mp_context_from_args sample_modes sample_args = Ok sample_context)
    by (vm_compute; reflexivity).
  assert (H2 : __enter__ "linear" "logistic" simple_ols sample_context sample_world
               = (Ok entered_context, entered_world)) by (vm_compute; reflexivity).
  exact (conj H1 (conj H2
           (multi_tissue_entry_opens_the_configured_folder "linear" "logistic" simple_ols
              sample_modes sample_args sample_context entered_context
              sample_world entered_world H1 H2))).
Defined.

Lemma hdf5_entry_keeps_the_handle_witness :
  p_context_from_args sample_modes both_files_args = Ok hdf5_context /\
  truthy_str (Args.hdf5_expression_file both_files_args) = true /\
  hdf5_entry = (Ok hdf5_entered, snd hdf5_entry) /\
  exists f genes,
    Args.hdf5_expression_file both_files_args = Some f /\
    expression_store single_tissue_world !! f = Some genes /\
    Context.h5 hdf5_entered = Some f /\
    Context.expression hdf5_entered = Some (HDF5Expression_Expression genes f) /\
    trace (snd hdf5_entry) = trace single_tissue_world ++ [Opened f] /\
    open_handles (snd hdf5_entry) = f :: open_handles single_tissue_world.
Proof.
  assert (H1 : p_context_from_args sample_modes both_files_args = Ok hdf5_context)
    by (vm_compute; reflexivity).
  assert (H2 : hdf5_entry = (Ok hdf5_entered, snd hdf5_entry))
    by (vm_compute; reflexivity).
  exact (conj H1 (conj eq_refl (conj H2
           (hdf5_entry_keeps_the_handle "linear" "logistic" simple_ols
              sample_modes both_files_args hdf5_context hdf5_entered
              single_tissue_world (snd hdf5_entry) H1 eq_refl H2)))).
Defined.

Lemma invalid_mode_is_refused_first_witness :
  (Args.mode poisson_args ∉ sample_modes) /\
  mp_context_from_args sample_modes poisson_args = Raise (InvalidArguments "Invalid mode") /\
  p_context_from_args sample_modes poisson_args = Raise (InvalidArguments "Invalid mode").
Proof.
  assert (H : Args.mode poisson_args ∉ sample_modes).
  { apply (bool_decide_eq_true_1 (Args.mode poisson_args ∉ sample_modes)).
    vm_compute. reflexivity. }
  exact (conj H (invalid_mode_is_refused_first sample_modes poisson_args H)).
Defined.

Lemma single_tissue_without_a_file_is_unbound_witness :
  Args.mode sample_args ∈ sample_modes /\
  truthy_str (Args.hdf5_expression_file sample_args) = false /\
  truthy_str (Args.expression_file sample_args) = false /\
  p_context_from_args sample_modes sample_args = Raise (UnboundLocalError "context").
Proof.
  assert (H : Args.mode sample_args ∈ sample_modes) by (left; reflexivity).
  exact (conj H (conj eq_refl (conj eq_refl
           (single_tissue_without_a_file_is_unbound sample_modes sample_args
              H eq_refl eq_refl)))).
Defined.
